(** * new_stock_pusher.py: the daily new-listing notifier

    A shallow embedding of [src/new_stock_pusher.py] and the properties of
    its calendar policy, notification ledger, data-source client and
    scheduler loop.

    Conventions of the embedding.
    - Text is a [string] of bytes, the UTF-8 encoding of a Python [str];
      [strip] removes the whitespace of [str.isspace], of one, two or
      three bytes.  Everything [strftime] produces is plain ASCII.
    - A [datetime] carries the seven fields of Python's naive datetime.
      The calendar arithmetic behind [weekday], [+ timedelta(days=1)] and
      datetime subtraction follows CPython's proleptic Gregorian ordinal.
    - Durations are integers in microseconds, the resolution of
      [timedelta]; [total_seconds()] is that number divided by 10^6.
    - The outside world is an [Env]: the process environment, the result of
      [eval] on a text, the successive readings of the wall clock, the
      answers of the two HTTP endpoints and the fate of the ledger writes.  Every [datetime.now()] in the
      source consumes one clock reading.
    - Opening the ledger file for writing, and the write, can fail: the
      [Env] says what each attempt comes to.
    - The [logging] calls carry no state and are left out. *)

From Stdlib Require Import ZArith List String Ascii Bool Lia DecimalString.
Import ListNotations.

Open Scope string_scope.
Open Scope Z_scope.

(** ** Python strings *)

Module PyStr.

Infix "+++" := String.append (right associativity, at level 60).

Definition code (c : ascii) : Z := Z.of_nat (nat_of_ascii c).

Definition chr (n : Z) : ascii := ascii_of_nat (Z.to_nat n).

(** The whitespace of [str.isspace] that is one byte of UTF-8: TAB..CR,
    FS..US and the blank. *)
Definition isspace (c : ascii) : bool :=
  let n := code c in
  ((9 <=? n) && (n <=? 13)) || ((28 <=? n) && (n <=? 32)).

(** Its whitespace of two bytes: U+0085 and U+00A0. *)
Definition isspace2 (a b : Z) : bool :=
  (a =? 194) && ((b =? 133) || (b =? 160)).

(** Its whitespace of three bytes: U+1680, U+2000..U+200A, U+2028, U+2029,
    U+202F, U+205F and U+3000. *)
Definition isspace3 (a b c : Z) : bool :=
  ((a =? 225) && (b =? 154) && (c =? 128))
  || ((a =? 226) && (b =? 128) &&
      (((128 <=? c) && (c <=? 138)) || (c =? 168) || (c =? 169) || (c =? 175)))
  || ((a =? 226) && (b =? 129) && (c =? 159))
  || ((a =? 227) && (b =? 128) && (c =? 128)).

(** What follows one whitespace character at the head of [s]. *)
Definition space_prefix (s : string) : option string :=
  match s with
  | String c r =>
      if isspace c then Some r
      else
        match r with
        | String d r1 =>
            if isspace2 (code c) (code d) then Some r1
            else
              match r1 with
              | String e r2 =>
                  if isspace3 (code c) (code d) (code e) then Some r2 else None
              | EmptyString => None
              end
        | EmptyString => None
        end
  | EmptyString => None
  end.

(** Drops the leading whitespace, one character of one, two or three
    bytes at a time. *)
Fixpoint lstrip (s : string) : string :=
  match s with
  | String c r =>
      if isspace c then lstrip r
      else
        match r with
        | String d r1 =>
            if isspace2 (code c) (code d) then lstrip r1
            else
              match r1 with
              | String e r2 =>
                  if isspace3 (code c) (code d) (code e) then lstrip r2 else s
              | EmptyString => s
              end
        | EmptyString => s
        end
  | EmptyString => EmptyString
  end.

(** Drops the trailing whitespace: a character is kept unless it and all
    that follows it is whitespace. *)
Fixpoint rstrip (s : string) : string :=
  match s with
  | EmptyString => EmptyString
  | String c r =>
      if String.eqb (lstrip s) EmptyString then EmptyString
      else String c (rstrip r)
  end.

(** [str.strip()] *)
Definition strip (s : string) : string := rstrip (lstrip s).

(** [str.lower()] on the ASCII letters. *)
Definition lower_char (c : ascii) : ascii :=
  let n := code c in
  if (65 <=? n) && (n <=? 90) then chr (n + 32) else c.

Fixpoint lower (s : string) : string :=
  match s with
  | EmptyString => EmptyString
  | String c r => String (lower_char c) (lower r)
  end.

(** [sep.join(l)] *)
Fixpoint join (sep : string) (l : list string) : string :=
  match l with
  | [] => EmptyString
  | [x] => x
  | x :: r => x +++ sep +++ join sep r
  end.

Fixpoint contains (c : ascii) (s : string) : bool :=
  match s with
  | EmptyString => false
  | String d r => Ascii.eqb c d || contains c r
  end.

(** [str(n)] for a non-negative [int]. *)
Definition str_of_nat (n : nat) : string :=
  NilZero.string_of_uint (Nat.to_uint n).

Definition digit (d : Z) : ascii := chr (48 + d).

(** [%02d] and [%04d] on the ranges [strftime] uses them. *)
Definition pad2 (n : Z) : string :=
  String (digit (n / 10 mod 10)) (String (digit (n mod 10)) EmptyString).

Definition pad4 (n : Z) : string :=
  String (digit (n / 1000 mod 10))
    (String (digit (n / 100 mod 10)) (pad2 n)).

Definition hexdigit (d : Z) : ascii :=
  if d <? 10 then chr (48 + d) else chr (87 + d).

Definition quote : ascii := "'"%char.
Definition dquote : ascii := chr 34.
Definition backslash : ascii := chr 92.
Definition newline : ascii := chr 10.

(** One character of [repr(s)] inside the quotes [q]. *)
Definition repr_char (q c : ascii) : string :=
  let n := code c in
  if Ascii.eqb c backslash then String backslash (String backslash EmptyString)
  else if Ascii.eqb c q then String backslash (String q EmptyString)
  else if n =? 10 then String backslash "n"
  else if n =? 13 then String backslash "r"
  else if n =? 9 then String backslash "t"
  else if (n <? 32) || (n =? 127) then
    String backslash (String "x" (String (hexdigit (n / 16))
                                    (String (hexdigit (n mod 16)) EmptyString)))
  else String c EmptyString.

Fixpoint repr_body (q : ascii) (s : string) : string :=
  match s with
  | EmptyString => EmptyString
  | String c r => repr_char q c +++ repr_body q r
  end.

(** [repr(s)]: single quotes, unless the text holds a single quote and
    no double quote. *)
Definition repr (s : string) : string :=
  let q := if contains quote s && negb (contains dquote s) then dquote else quote in
  String q (repr_body q s +++ String q EmptyString).

(** [str(d)] of a dict whose keys and values are [str], in insertion
    order. *)
Definition str_of_dict (d : list (string * string)) : string :=
  "{" +++ join ", " (map (fun kv => repr (fst kv) +++ ": " +++ repr (snd kv)) d) +++ "}".

End PyStr.

Import PyStr.

(** ** Python values that a stored text can evaluate to *)

#[warnings="-register-all"]
Inductive pyval : Type :=
| VNone
| VBool (b : bool)
| VInt (n : Z)
| VStr (s : string)
| VList (l : list pyval)
| VDict (d : list (pyval * pyval)).

(** [d.get(key, default)] for a [str] key: only a [str] equals a [str]. *)
Fixpoint dict_get (d : list (pyval * pyval)) (key : string) (default : pyval) : pyval :=
  match d with
  | [] => default
  | (VStr k, v) :: r => if String.eqb k key then v else dict_get r key default
  | _ :: r => dict_get r key default
  end.

(** [v == s] for a [str] [s]. *)
Definition eq_str (v : pyval) (s : string) : bool :=
  match v with
  | VStr t => String.eqb t s
  | _ => false
  end.

(** [v == 0]: the integer zero, and [False], which Python equates with it. *)
Definition eq_zero (v : pyval) : bool :=
  match v with
  | VInt n => n =? 0
  | VBool b => negb b
  | _ => false
  end.

(** *** Dict displays of string literals

    The part of Python's expression language that [str] of a dict of
    strings lands in: [{'k': 'v', ...}] with single- or double-quoted
    literals and the common escapes.  Whatever else a text may be, this
    reading says nothing about it. *)

Module Display.

(** Blank, TAB and line feed: what may stand between the tokens of a
    display. *)
Definition is_blank (c : ascii) : bool :=
  let n := code c in
  (n =? 32) || (n =? 9) || (n =? 10).

Fixpoint skip_ws (s : string) : string :=
  match s with
  | String c r => if is_blank c then skip_ws r else s
  | EmptyString => EmptyString
  end.

Definition unescape (c : ascii) : option ascii :=
  if Ascii.eqb c backslash then Some backslash
  else if Ascii.eqb c quote then Some quote
  else if Ascii.eqb c dquote then Some dquote
  else if Ascii.eqb c "n" then Some newline
  else if Ascii.eqb c "r" then Some (chr 13)
  else if Ascii.eqb c "t" then Some (chr 9)
  else None.

(** The body of a literal opened by [q], up to the closing [q]. *)
Fixpoint scan (q : ascii) (s : string) : option (string * string) :=
  match s with
  | EmptyString => None
  | String c r =>
      if Ascii.eqb c q then Some (EmptyString, r)
      else if Ascii.eqb c backslash then
        match r with
        | String e r' =>
            match unescape e, scan q r' with
            | Some ch, Some (b, rest) => Some (String ch b, rest)
            | _, _ => None
            end
        | EmptyString => None
        end
      else if Ascii.eqb c newline || Ascii.eqb c (chr 13) || Ascii.eqb c (chr 0) then None
      else
        match scan q r with
        | Some (b, rest) => Some (String c b, rest)
        | None => None
        end
  end.

Definition literal (s : string) : option (string * string) :=
  match s with
  | String q r =>
      if Ascii.eqb q quote || Ascii.eqb q dquote then scan q r else None
  | EmptyString => None
  end.

(** Assignment [d[k] = v]: a key keeps its place, a new one goes last. *)
Fixpoint dict_set (d : list (pyval * pyval)) (k : string) (v : pyval)
  : list (pyval * pyval) :=
  match d with
  | [] => [(VStr k, v)]
  | (VStr k', v') :: r =>
      if String.eqb k' k then (VStr k', v) :: r else (VStr k', v') :: dict_set r k v
  | e :: r => e :: dict_set r k v
  end.

Definition expect (c : ascii) (s : string) : option string :=
  match s with
  | String d r => if Ascii.eqb c d then Some r else None
  | EmptyString => None
  end.

(** What follows the opening brace: the closing brace, or a
    [key: value] pair and, after a comma, the same again; [fuel] bounds
    the number of pairs. *)
Fixpoint entries (fuel : nat) (s : string) (acc : list (pyval * pyval))
  : option (list (pyval * pyval)) :=
  match fuel with
  | O => None
  | S fuel' =>
      match skip_ws s with
      | String "}" rest =>
          if String.eqb (skip_ws rest) EmptyString then Some acc else None
      | s0 =>
          match literal s0 with
          | None => None
          | Some (k, s1) =>
              match expect ":" (skip_ws s1) with
              | None => None
              | Some s2 =>
                  match literal (skip_ws s2) with
                  | None => None
                  | Some (v, s3) =>
                      let acc' := dict_set acc k (VStr v) in
                      match skip_ws s3 with
                      | String "}" rest =>
                          if String.eqb (skip_ws rest) EmptyString then Some acc' else None
                      | String "," s4 => entries fuel' s4 acc'
                      | _ => None
                      end
                  end
              end
          end
      end
  end.

Definition eval_display (s : string) : option (list (pyval * pyval)) :=
  match s with
  | String "{" r => entries (S (String.length r)) r []
  | _ => None
  end.

(** Characters that [repr] leaves as they are inside single quotes. *)
Definition plain_char (c : ascii) : bool :=
  (32 <=? code c) && negb (code c =? 127) && negb (Ascii.eqb c quote)
  && negb (Ascii.eqb c dquote) && negb (Ascii.eqb c backslash).

Fixpoint plain (s : string) : bool :=
  match s with
  | EmptyString => true
  | String c r => plain_char c && plain r
  end.

End Display.

(** ** Naive datetimes *)

Module PyDatetime.

Record datetime : Type := mkdt {
  year : Z; month : Z; day : Z;
  hour : Z; minute : Z; second : Z; microsecond : Z
}.

Definition is_leap (y : Z) : bool :=
  (y mod 4 =? 0) && (negb (y mod 100 =? 0) || (y mod 400 =? 0)).

Definition DAYS_IN_MONTH : list Z :=
  [-1; 31; 28; 31; 30; 31; 30; 31; 31; 30; 31; 30; 31].

Definition DAYS_BEFORE_MONTH : list Z :=
  [-1; 0; 31; 59; 90; 120; 151; 181; 212; 243; 273; 304; 334].

Definition tbl (t : list Z) (i : Z) : Z := nth (Z.to_nat i) t 0.

Definition b2z (b : bool) : Z := if b then 1 else 0.

Definition days_in_month (y m : Z) : Z :=
  if (m =? 2) && is_leap y then 29 else tbl DAYS_IN_MONTH m.

Definition days_before_year (y : Z) : Z :=
  let y := y - 1 in
  y * 365 + y / 4 - y / 100 + y / 400.

Definition days_before_month (y m : Z) : Z :=
  tbl DAYS_BEFORE_MONTH m + b2z ((2 <? m) && is_leap y).

(** Days since 0001-01-01, that day being 1. *)
Definition ymd2ord (y m d : Z) : Z :=
  days_before_year y + days_before_month y m + d.

Definition DI400Y : Z := 146097.
Definition DI100Y : Z := 36524.
Definition DI4Y : Z := 1461.
Definition MAXORDINAL : Z := 3652059.

(** Month and day of the [n]-th day (from 0) of a year: the estimate
    [(n + 50) >> 5] is exact or one too large. *)
Definition month_day (n : Z) (leapyear : bool) : Z * Z :=
  let m := Z.shiftr (n + 50) 5 in
  let preceding := tbl DAYS_BEFORE_MONTH m + b2z ((2 <? m) && leapyear) in
  if n <? preceding then
    let m := m - 1 in
    let preceding :=
      preceding - (tbl DAYS_IN_MONTH m + b2z ((m =? 2) && leapyear)) in
    (m, n - preceding + 1)
  else (m, n - preceding + 1).

Definition ord2ymd (n : Z) : Z * Z * Z :=
  let n := n - 1 in
  let n400 := n / DI400Y in
  let n := n mod DI400Y in
  let y := n400 * 400 + 1 in
  let n100 := n / DI100Y in
  let n := n mod DI100Y in
  let n4 := n / DI4Y in
  let n := n mod DI4Y in
  let n1 := n / 365 in
  let n := n mod 365 in
  let y := y + n100 * 100 + n4 * 4 + n1 in
  if (n1 =? 4) || (n100 =? 4) then (y - 1, 12, 31)
  else
    let leapyear := (n1 =? 3) && (negb (n4 =? 24) || (n100 =? 3)) in
    let '(m, d) := month_day n leapyear in
    (y, m, d).

(** The month and day found for day [k] of a year add up to it. *)
Definition month_day_check (leap : bool) (k : nat) : bool :=
  let n := Z.of_nat k in
  let '(m, d) := month_day n leap in
  (1 <=? m) && (m <=? 12) && (1 <=? d) &&
  (tbl DAYS_BEFORE_MONTH m + b2z ((2 <? m) && leap) + d =? n + 1).

Definition toordinal (t : datetime) : Z := ymd2ord (year t) (month t) (day t).

(** [date.weekday()]: Monday is 0, Sunday is 6. *)
Definition weekday (t : datetime) : Z := (toordinal t + 6) mod 7.

Definition seconds_of_day (t : datetime) : Z :=
  hour t * 3600 + minute t * 60 + second t.

(** [t + timedelta(days=k)]; [None] is [OverflowError]. *)
Definition add_days (t : datetime) (k : Z) : option datetime :=
  let o := toordinal t + k in
  if (0 <? o) && (o <=? MAXORDINAL) then
    let '(y, m, d) := ord2ymd o in
    let s := seconds_of_day t in
    Some (mkdt y m d (s / 3600) (s mod 3600 / 60) (s mod 3600 mod 60) (microsecond t))
  else None.

(** [t.replace(hour=h, minute=mi, second=0, microsecond=0)] *)
Definition replace_hm (t : datetime) (h mi : Z) : datetime :=
  mkdt (year t) (month t) (day t) h mi 0 0.

(** [(a - b).total_seconds()], in microseconds. *)
Definition sub_us (a b : datetime) : Z :=
  ((toordinal a - toordinal b) * 86400 + (seconds_of_day a - seconds_of_day b)) * 1000000
  + (microsecond a - microsecond b).

(** Lexicographic order on pairs, triples ... as Python compares tuples. *)
Definition lex (x y : Z) (rest : bool) : bool :=
  (x <? y) || ((x =? y) && rest).

(** [a < b] *)
Definition lt (a b : datetime) : bool :=
  lex (year a) (year b)
    (lex (month a) (month b)
       (lex (day a) (day b)
          (lex (hour a) (hour b)
             (lex (minute a) (minute b)
                (lex (second a) (second b)
                   (microsecond a <? microsecond b)))))).

(** [strftime('%Y-%m-%d')] *)
Definition strftime_date (t : datetime) : string :=
  pad4 (year t) +++ "-" +++ pad2 (month t) +++ "-" +++ pad2 (day t).

(** [strftime('%H:%M:%S')] *)
Definition strftime_time (t : datetime) : string :=
  pad2 (hour t) +++ ":" +++ pad2 (minute t) +++ ":" +++ pad2 (second t).

(** [strftime('%Y-%m-%d %H:%M:%S')] *)
Definition strftime_full (t : datetime) : string :=
  strftime_date t +++ " " +++ strftime_time t.

(** What every value of Python's [datetime] satisfies. *)
Definition valid (t : datetime) : Prop :=
  1 <= year t <= 9999 /\ 1 <= month t <= 12 /\
  1 <= day t <= days_in_month (year t) (month t) /\
  0 <= hour t < 24 /\ 0 <= minute t < 60 /\ 0 <= second t < 60 /\
  0 <= microsecond t < 1000000.

(** Same calendar date. *)
Definition same_date (a b : datetime) : Prop :=
  year a = year b /\ month a = month b /\ day a = day b.

End PyDatetime.

Import PyDatetime.

(** ** The outside world *)

(** One element matched by [soup.select('.stock-item')]: the text of its
    [.stock-name], [.stock-code] and [.stock-price] children, [None] where
    [select_one] finds no such child. *)
Record stock_item : Type := {
  stock_name : option string;
  stock_code : option string;
  stock_price : option string
}.

(** What the webhook POST comes back with: an exception anywhere between
    the request and [response.json().get], or the value found under
    ['errcode'] ([VNone] when the key is missing). *)
Inductive post_result : Type :=
| PostRaises
| PostReply (errcode : pyval).

(** What overwriting the ledger file comes to: [open(STATUS_FILE, 'w')]
    raises and the file is as it was; or the file is opened, which empties
    it, and [f.write] or the close raises, the file holding [rest]; or the
    text is stored. *)
Inductive write_result : Type :=
| OpenRaises
| WriteRaises (rest : string)
| Written.

Record Env : Type := {
  (** [os.getenv]'s table *)
  environ : string -> option string;
  (** [eval(text)]; [None] when it raises *)
  py_eval : string -> option pyval;
  (** the k-th reading of [datetime.now()] *)
  clock : nat -> datetime;
  (** the k-th [requests.get] and what [soup.select] finds in it; [None]
      when the request or the parse raises *)
  http_get : nat -> option (list stock_item);
  (** the k-th [requests.post] of a message text *)
  http_post : nat -> string -> post_result;
  (** [open(STATUS_FILE, 'w')] and the write, attempted when k readings of
      the clock have been taken *)
  fs_write : nat -> write_result
}.

(** The ledger file [pushed_status.json]. *)
Inductive file_state : Type :=
| Absent
| Unreadable
| Contents (text : string).

Inductive event : Type :=
| EvSleep (us : Z)              (* time.sleep *)
| EvCrawl                       (* crawl_new_stocks called *)
| EvNotify (content : string)   (* send_wechat_message called *)
| EvPost (text : string)        (* the webhook POST issued *)
| EvWrite (text : string)       (* the ledger file overwritten *)
| EvRemove                      (* the ledger file removed *)
| EvPrint (line : string).

Record World : Type := mkWorld {
  ticks : nat;                  (* clock readings taken so far *)
  gets : nat;                   (* GET requests made so far *)
  posts : nat;                  (* POST requests made so far *)
  status_file : file_state;
  trace : list event            (* oldest first *)
}.

Inductive exn : Type :=
| OverflowError
| OSError
| AttributeError
| NameError
| SystemExit (status : Z).

Inductive result (A : Type) : Type :=
| Ok (a : A)
| Raise (e : exn).

Arguments Ok {A} a.
Arguments Raise {A} e.

(** State and uncaught exceptions. *)
Definition M (A : Type) : Type := World -> result A * World.

Definition ret {A} (a : A) : M A := fun w => (Ok a, w).

Definition raise {A} (e : exn) : M A := fun w => (Raise e, w).

Definition bind {A B} (m : M A) (k : A -> M B) : M B :=
  fun w =>
    match m w with
    | (Ok a, w') => k a w'
    | (Raise e, w') => (Raise e, w')
    end.

Notation "x <- m ;; k" := (bind m (fun x => k))
  (at level 61, m at next level, right associativity).
Notation "m ;;; k" := (bind m (fun _ => k))
  (at level 61, right associativity).

Definition emit (e : event) : M unit :=
  fun w => (Ok tt, mkWorld (ticks w) (gets w) (posts w) (status_file w) (trace w ++ [e])).

Definition second_us : Z := 1000000.

(** [time.sleep(seconds)] *)
Definition sleep (us : Z) : M unit := emit (EvSleep us).

Definition read_status : M file_state := fun w => (Ok (status_file w), w).

(** [f.write(text)] and the close that ends the [with] block, on a file
    opened with the prospect [a]. *)
Definition write_status (a : write_result) (text : string) : M unit :=
  fun w =>
    match a with
    | WriteRaises rest =>
        (Raise OSError, mkWorld (ticks w) (gets w) (posts w) (Contents rest) (trace w))
    | _ =>
        (Ok tt, mkWorld (ticks w) (gets w) (posts w) (Contents text)
                  (trace w ++ [EvWrite text]))
    end.

(** [os.remove(STATUS_FILE)] *)
Definition remove_status : M unit :=
  fun w => (Ok tt, mkWorld (ticks w) (gets w) (posts w) Absent (trace w ++ [EvRemove])).

(** The branch one iteration of the loop in [run] takes. *)
Inductive phase : Type :=
| NotTradingDay
| AlreadyPushedToday
| OutsideTradingHours
| FetchFailed
| NotifyFailed
| Pushed.

Record trading_hours_t : Type := {
  morning : Z * Z * Z * Z;
  afternoon : Z * Z * Z * Z
}.

Record NewStockPusher : Type := { trading_hours : trading_hours_t }.

(** [NewStockPusher.__init__] *)
Definition init : NewStockPusher :=
  {| trading_hours := {| morning := (9, 30, 11, 30); afternoon := (13, 0, 15, 0) |} |}.

(** [f"{i+1}. {stock}" for i, stock in enumerate(stocks)], from index [i]. *)
Fixpoint numbered (i : nat) (stocks : list string) : list string :=
  match stocks with
  | [] => []
  | stock :: r => (str_of_nat (i + 1) +++ ". " +++ stock) :: numbered (S i) r
  end.

Definition unknown : string := "未知".

Definition no_stock_info : string := "今日无新股信息".

(** [item.select_one(c).text.strip() if item.select_one(c) else '未知'] *)
Definition field_text (f : option string) : string :=
  match f with
  | Some t => strip t
  | None => unknown
  end.

(** [f"{name}（{code}）- 发行价：{price}"] *)
Definition format_stock (item : stock_item) : string :=
  field_text (stock_name item) +++ "（" +++ field_text (stock_code item)
  +++ "）- 发行价：" +++ field_text (stock_price item).

(** The text of the webhook message: the header line, the content, an
    empty line and the time of sending. *)
Definition message_text (content : string) (t : datetime) : string :=
  "📈 今日新股认购信息" +++ String newline content
  +++ String newline (String newline "发送时间：") +++ strftime_full t.

Definition is_nil {A} (l : list A) : bool :=
  match l with [] => true | _ => false end.

Section Program.

Variable E : Env.

(** [os.getenv(name, default)] *)
Definition getenv (name default : string) : string :=
  match environ E name with
  | Some v => v
  | None => default
  end.

Definition WECHAT_WEBHOOK : string := getenv "WECHAT_WEBHOOK" EmptyString.

Definition TEST_MODE : bool := String.eqb (lower (getenv "TEST_MODE" "False")) "true".

(** [datetime.now()] *)
Definition now : M datetime :=
  fun w => (Ok (clock E (ticks w)),
            mkWorld (S (ticks w)) (gets w) (posts w) (status_file w) (trace w)).

(** [requests.get] and the [select] over its parse *)
Definition get_items : M (option (list stock_item)) :=
  fun w => (Ok (http_get E (gets w)),
            mkWorld (ticks w) (S (gets w)) (posts w) (status_file w) (trace w)).

(** [requests.post] and [response.json().get('errcode')] *)
Definition post_message (text : string) : M post_result :=
  fun w => (Ok (http_post E (posts w) text),
            mkWorld (ticks w) (gets w) (S (posts w)) (status_file w)
              (trace w ++ [EvPost text])).

(** [open(STATUS_FILE, 'w')]: it raises, or it leaves the file empty and
    gives what the write will come to. *)
Definition open_status : M write_result :=
  fun w =>
    match fs_write E (ticks w) with
    | OpenRaises => (Raise OSError, w)
    | a => (Ok a, mkWorld (ticks w) (gets w) (posts w) (Contents EmptyString) (trace w))
    end.

(** [t + timedelta(days=1)] *)
Definition plus_one_day (t : datetime) : M datetime :=
  match add_days t 1 with
  | Some t' => ret t'
  | None => raise OverflowError
  end.

Definition is_trading_day : M bool :=
  if TEST_MODE then ret true
  else
    t <- now ;;
    ret (weekday t <? 5).

Definition is_in_trading_hours (self : NewStockPusher) : M bool :=
  if TEST_MODE then ret true
  else
    t <- now ;;
    let h := hour t in
    let m := minute t in
    let '(m_start_h, m_start_m, m_end_h, m_end_m) := morning (trading_hours self) in
    let in_morning :=
      ((m_start_h <? h) || ((h =? m_start_h) && (m_start_m <=? m))) &&
      ((h <? m_end_h) || ((h =? m_end_h) && (m <=? m_end_m))) in
    let '(a_start_h, a_start_m, a_end_h, a_end_m) := afternoon (trading_hours self) in
    let in_afternoon :=
      ((a_start_h <? h) || ((h =? a_start_h) && (a_start_m <=? m))) &&
      ((h <? a_end_h) || ((h =? a_end_h) && (m <=? a_end_m))) in
    ret (in_morning || in_afternoon).

(** Everything raised inside the [try] ends in [return False]: a missing
    or unreadable file, a text [eval] rejects, a value without [get]. *)
Definition has_pushed_today : M bool :=
  f <- read_status ;;
  match f with
  | Contents text =>
      let data := strip text in
      if String.eqb data EmptyString then ret false
      else
        match py_eval E data with
        | Some (VDict status) =>
            let last_date := dict_get status "last_pushed_date" (VStr EmptyString) in
            t <- now ;;
            ret (eq_str last_date (strftime_date t))
        | _ => ret false
        end
  | _ => ret false
  end.

(** The file is opened before the dict display is evaluated; nothing
    here is inside a [try]. *)
Definition update_push_status : M unit :=
  a <- open_status ;;
  d <- now ;;
  t <- now ;;
  write_status a (str_of_dict [("last_pushed_date", strftime_date d);
                             ("last_pushed_time", strftime_time t)]).

(** [None] is the [return None] of the [except] branch. *)
Definition crawl_new_stocks : M (option (list string)) :=
  emit EvCrawl ;;;
  r <- get_items ;;
  match r with
  | None => ret None
  | Some items =>
      let stocks := map format_stock (firstn 5 items) in
      ret (Some (if is_nil stocks then [no_stock_info] else stocks))
  end.

Definition send_wechat_message (content : string) : M bool :=
  emit (EvNotify content) ;;;
  if String.eqb WECHAT_WEBHOOK EmptyString then ret false
  else
    t <- now ;;
    r <- post_message (message_text content t) ;;
    match r with
    | PostReply errcode => ret (eq_zero errcode)
    | PostRaises => ret false
    end.

(** The wait until 08:00 of the day after, as both success paths of
    [run] compute it. *)
Definition sleep_until_next_day : M unit :=
  t1 <- now ;;
  next_day <- plus_one_day t1 ;;
  let next_check := replace_hm next_day 8 0 in
  t2 <- now ;;
  sleep (Z.max 0 (sub_us next_check t2)).

(** One iteration of the [while True] of [run]. *)
Definition run_cycle (self : NewStockPusher) : M phase :=
  today <- now ;;
  trading <- is_trading_day ;;
  if negb trading then
    sleep (6 * 3600 * second_us) ;;;
    ret NotTradingDay
  else
    pushed <- has_pushed_today ;;
    if pushed then
      sleep_until_next_day ;;;
      ret AlreadyPushedToday
    else
      inside <- is_in_trading_hours self ;;
      if negb inside then
        t <- now ;;
        let m_start := replace_hm t (fst (fst (fst (morning (trading_hours self)))))
                                    (snd (fst (fst (morning (trading_hours self))))) in
        let a_start := replace_hm t (fst (fst (fst (afternoon (trading_hours self)))))
                                    (snd (fst (fst (afternoon (trading_hours self))))) in
        let sleep_seconds :=
          if lt t m_start then sub_us m_start t
          else if lt t a_start then sub_us a_start t else 3600 * second_us in
        sleep (Z.max 0 sleep_seconds) ;;;
        ret OutsideTradingHours
      else
        stocks <- crawl_new_stocks ;;
        match stocks with
        | None | Some [] =>
            sleep (30 * 60 * second_us) ;;;
            ret FetchFailed
        | Some stocks =>
            let content := join (String newline EmptyString) (numbered 0 stocks) in
            success <- send_wechat_message content ;;
            if success then
              update_push_status ;;;
              sleep_until_next_day ;;;
              ret Pushed
            else
              sleep (30 * 60 * second_us) ;;;
              ret NotifyFailed
        end.

(** [run], cut after [n] iterations; an uncaught exception ends it. *)
Fixpoint run (self : NewStockPusher) (n : nat) : M (list phase) :=
  match n with
  | O => ret []
  | S n' =>
      p <- run_cycle self ;;
      ps <- run self n' ;;
      ret (p :: ps)
  end.

(** *** The [__main__] block *)

(** The names the [import] statements bind at module level. *)
Definition imported : list string :=
  ["os"; "time"; "logging"; "requests"; "datetime"; "timedelta"; "BeautifulSoup"].

(** Attribute [argv] of a module: [sys] has it, [os] does not. *)
Definition module_argv (module : string) (argv : list string) : M (list string) :=
  if negb (existsb (String.eqb module) imported) then raise NameError
  else if String.eqb module "sys" then ret argv
  else raise AttributeError.

(** [sys.exit(status)] *)
Definition sys_exit (status : Z) : M unit :=
  if existsb (String.eqb "sys") imported then raise (SystemExit status)
  else raise NameError.

Definition main (argv : list string) (n : nat) : M (list phase) :=
  a <- module_argv "os" argv ;;
  let many := (1 <? Z.of_nat (List.length a)) in
  clear <- (if many then b <- module_argv "os" argv ;; ret (String.eqb (nth 1 b EmptyString) "clear")
            else ret false) ;;
  if clear then
    f <- read_status ;;
    match f with
    | Absent => ret tt
    | _ => remove_status ;;; emit (EvPrint "已清除推送状态")
    end ;;;
    sys_exit 0 ;;;
    ret []
  else
    run init n.

End Program.

(** ** Notions the properties are stated with *)

(** [(hour, minute)] pairs in lexicographic order. *)
Definition hm_le (a b : Z * Z) : Prop :=
  fst a < fst b \/ (fst a = fst b /\ snd a <= snd b).

Definition hm_within (lo hi t : Z * Z) : Prop := hm_le lo t /\ hm_le t hi.

Definition hm_of (t : datetime) : Z * Z := (hour t, minute t).

(** Microseconds since midnight. *)
Definition us_of_day (t : datetime) : Z := seconds_of_day t * 1000000 + microsecond t.

(** Microseconds from [t] to [h:m:00] of the same day. *)
Definition us_until (t : datetime) (h m : Z) : Z :=
  (h * 3600 + m * 60) * 1000000 - us_of_day t.

(** Microseconds from [t2] to 08:00:00 of the day after [t1]'s. *)
Definition until_next_0800 (t1 t2 : datetime) : Z :=
  ((toordinal t1 + 1 - toordinal t2) * 86400 + 8 * 3600) * 1000000 - us_of_day t2.

(** The wait of the OutsideTradingHours state, before clamping. *)
Definition outside_wait (t : datetime) : Z :=
  if us_of_day t <? (9 * 3600 + 30 * 60) * 1000000 then us_until t 9 30
  else if us_of_day t <? 13 * 3600 * 1000000 then us_until t 13 0
  else 3600 * 1000000.

(** The ledger holds a record whose [last_pushed_date] is [date]. *)
Definition ledger_says (E : Env) (f : file_state) (date : string) : Prop :=
  exists text status,
    f = Contents text /\ strip text <> EmptyString /\
    py_eval E (strip text) = Some (VDict status) /\
    dict_get status "last_pushed_date" (VStr EmptyString) = VStr date.

(** The text [update_push_status] stores for a date and a time of day. *)
Definition ledger_text (d t : datetime) : string :=
  str_of_dict [("last_pushed_date", strftime_date d); ("last_pushed_time", strftime_time t)].

(** [eval] agrees with the reading of dict displays of string literals. *)
Definition eval_reads_displays (E : Env) : Prop :=
  forall s d, Display.eval_display s = Some d -> py_eval E s = Some (VDict d).

Definition is_write (e : event) : bool :=
  match e with EvWrite _ => true | _ => false end.

(** Fetch, notifier call or webhook request. *)
Definition is_outbound (e : event) : bool :=
  match e with EvCrawl | EvNotify _ | EvPost _ => true | _ => false end.

Definition count_writes (evs : list event) : nat := List.length (filter is_write evs).

(** What [crawl_new_stocks] returns for the elements found on the page. *)
Definition listing (items : list stock_item) : list string :=
  let stocks := map format_stock (firstn 5 items) in
  if is_nil stocks then [no_stock_info] else stocks.

(** The numbered list [run] hands to the notifier. *)
Definition content_of (stocks : list string) : string :=
  join (String newline EmptyString) (numbered 0 stocks).

(** The [k]-th webhook request, carrying [text], is answered with an
    [errcode] equal to 0. *)
Definition accepted (E : Env) (k : nat) (text : string) : Prop :=
  exists v, http_post E k text = PostReply v /\ eq_zero v = true.

(** The calendar check of an iteration started in [w] passes. *)
Definition calendar_passes (E : Env) (w : World) : Prop :=
  TEST_MODE E = true \/ weekday (clock E (S (ticks w))) < 5.

(** The answer of [is_in_trading_hours] when it is given the [k]-th clock
    reading. *)
Definition in_hours_at (E : Env) (self : NewStockPusher) (k : nat) : result bool :=
  fst (is_in_trading_hours E self (mkWorld k 0 0 Absent [])).

(** The wait of the OutsideTradingHours branch as [run] computes it,
    before clamping. *)
Definition wait_outside (self : NewStockPusher) (t : datetime) : Z :=
  let m_start := replace_hm t (fst (fst (fst (morning (trading_hours self)))))
                              (snd (fst (fst (morning (trading_hours self))))) in
  let a_start := replace_hm t (fst (fst (fst (afternoon (trading_hours self)))))
                              (snd (fst (fst (afternoon (trading_hours self))))) in
  if lt t m_start then sub_us m_start t
  else if lt t a_start then sub_us a_start t else 3600 * second_us.

(** How an iteration ends once it starts waiting for the next day with
    the clock readings [k] and [k + 1]: it sleeps and ends in [p], or the
    day after does not exist and [OverflowError] escapes. *)
Definition next_day_wait (E : Env) (k : nat) (p : phase)
  (r : result phase) (evs : list event) : Prop :=
  match add_days (clock E k) 1 with
  | Some next_day =>
      r = Ok p /\
      evs = [EvSleep (Z.max 0 (sub_us (replace_hm next_day 8 0) (clock E (S k))))]
  | None => r = Raise OverflowError /\ evs = []
  end.

(** The ledger does not say "pushed" on some date the iteration reads. *)
Definition not_pushed (E : Env) (w : World) : Prop :=
  exists j, (ticks w <= j)%nat /\
    ~ ledger_says E (status_file w) (strftime_date (clock E j)).

(** [w'] differs from [w] by clock readings only. *)
Definition steady (w w' : World) : Prop :=
  (ticks w <= ticks w')%nat /\ gets w' = gets w /\ posts w' = posts w /\
  status_file w' = status_file w /\ trace w' = trace w.

(** The paths through one iteration of [run]: its outcome, the ledger
    file it leaves and the events it adds. *)
Inductive cycle (E : Env) (self : NewStockPusher) (w : World)
  : result phase -> file_state -> list event -> Prop :=
| cycle_not_trading_day :
    TEST_MODE E = false -> 5 <= weekday (clock E (S (ticks w))) ->
    cycle E self w (Ok NotTradingDay) (status_file w) [EvSleep (6 * 3600 * second_us)]
| cycle_already_pushed k r evs :
    calendar_passes E w -> (ticks w <= k)%nat ->
    ledger_says E (status_file w) (strftime_date (clock E k)) ->
    next_day_wait E (S k) AlreadyPushedToday r evs ->
    cycle E self w r (status_file w) evs
| cycle_outside k :
    calendar_passes E w -> not_pushed E w -> (ticks w <= k)%nat ->
    in_hours_at E self k = Ok false ->
    cycle E self w (Ok OutsideTradingHours) (status_file w)
      [EvSleep (Z.max 0 (wait_outside self (clock E (S k))))]
| cycle_fetch_failed :
    calendar_passes E w -> not_pushed E w ->
    http_get E (gets w) = None ->
    cycle E self w (Ok FetchFailed) (status_file w)
      [EvCrawl; EvSleep (30 * 60 * second_us)]
| cycle_no_webhook items :
    calendar_passes E w -> not_pushed E w ->
    http_get E (gets w) = Some items ->
    WECHAT_WEBHOOK E = EmptyString ->
    cycle E self w (Ok NotifyFailed) (status_file w)
      [EvCrawl; EvNotify (content_of (listing items)); EvSleep (30 * 60 * second_us)]
| cycle_notify_failed items k :
    calendar_passes E w -> not_pushed E w ->
    http_get E (gets w) = Some items ->
    WECHAT_WEBHOOK E <> EmptyString -> (ticks w <= k)%nat ->
    let text := message_text (content_of (listing items)) (clock E k) in
    ~ accepted E (posts w) text ->
    cycle E self w (Ok NotifyFailed) (status_file w)
      [EvCrawl; EvNotify (content_of (listing items)); EvPost text;
       EvSleep (30 * 60 * second_us)]
| cycle_pushed items k r evs :
    calendar_passes E w -> not_pushed E w ->
    http_get E (gets w) = Some items ->
    WECHAT_WEBHOOK E <> EmptyString -> (ticks w <= k)%nat ->
    let text := message_text (content_of (listing items)) (clock E k) in
    let record := ledger_text (clock E (S k)) (clock E (S (S k))) in
    accepted E (posts w) text ->
    fs_write E (S k) = Written ->
    next_day_wait E (S (S (S k))) Pushed r evs ->
    cycle E self w r (Contents record)
      ([EvCrawl; EvNotify (content_of (listing items)); EvPost text; EvWrite record] ++ evs)
| cycle_open_raises items k :
    calendar_passes E w -> not_pushed E w ->
    http_get E (gets w) = Some items ->
    WECHAT_WEBHOOK E <> EmptyString -> (ticks w <= k)%nat ->
    let text := message_text (content_of (listing items)) (clock E k) in
    accepted E (posts w) text ->
    fs_write E (S k) = OpenRaises ->
    cycle E self w (Raise OSError) (status_file w)
      [EvCrawl; EvNotify (content_of (listing items)); EvPost text]
| cycle_write_raises items k rest :
    calendar_passes E w -> not_pushed E w ->
    http_get E (gets w) = Some items ->
    WECHAT_WEBHOOK E <> EmptyString -> (ticks w <= k)%nat ->
    let text := message_text (content_of (listing items)) (clock E k) in
    accepted E (posts w) text ->
    fs_write E (S k) = WriteRaises rest ->
    cycle E self w (Raise OSError) (Contents rest)
      [EvCrawl; EvNotify (content_of (listing items)); EvPost text].

(** The clock shows dates that exist and that have a day after. *)
Definition real_clock (E : Env) : Prop :=
  forall k, valid (clock E k) /\ toordinal (clock E k) < MAXORDINAL.

(** Every reading of the clock falls on the date of [today]. *)
Definition one_date (E : Env) (today : datetime) : Prop :=
  forall k, same_date (clock E k) today.

(** The webhook accepted a message sent among [evs], the requests made
    before being [k]. *)
Definition delivered (E : Env) (k : nat) (evs : list event) : Prop :=
  exists text, In (EvPost text) evs /\ accepted E k text.

(** Neither a ledger write nor anything sent out. *)
Definition quiet (e : event) : bool := negb (is_write e) && negb (is_outbound e).

(** The events that follow the first ledger write. *)
Fixpoint after_first_write (evs : list event) : list event :=
  match evs with
  | [] => []
  | EvWrite _ :: rest => rest
  | _ :: rest => after_first_write rest
  end.

(** The sleep until 08:00 of the day after, between two consecutive
    readings of the clock. *)
Definition sleeps_until_next_0800 (E : Env) (e : event) : Prop :=
  exists k, e = EvSleep (Z.max 0 (until_next_0800 (clock E k) (clock E (S k)))).

(** ** Sample environments *)

Definition eval_literal (s : string) : option pyval :=
  option_map VDict (Display.eval_display s).

(** A webhook is configured; [TEST_MODE] is set as [test] says; every
    request finds [page] and every message is answered with [reply]; the
    clock shows [t0] plus one microsecond per reading, short of the next
    second. *)
Definition env_with (t0 : datetime) (test : bool) (page : option (list stock_item))
  (reply : post_result) : Env :=
  {| environ := fun k => if String.eqb k "WECHAT_WEBHOOK" then Some "https://hook"
                         else if String.eqb k "TEST_MODE" && test then Some "True"
                         else None;
     py_eval := eval_literal;
     clock := fun k => mkdt (year t0) (month t0) (day t0) (hour t0) (minute t0)
                         (second t0) (Z.min (Z.of_nat k) 999999);
     http_get := fun _ => page;
     http_post := fun _ _ => reply;
     fs_write := fun _ => Written |}.

(** Test mode off, nothing listed, every message accepted. *)
Definition env_at (t0 : datetime) : Env := env_with t0 false (Some []) (PostReply (VInt 0)).

(** The same with [TEST_MODE=True]. *)
Definition env_test (t0 : datetime) : Env := env_with t0 true (Some []) (PostReply (VInt 0)).

Definition an_item (name : string) : stock_item :=
  {| stock_name := Some name; stock_code := Some " 688001 "; stock_price := None |}.

Definition seven_items : list stock_item :=
  map an_item ["A"; "B"; "C"; "D"; "E"; "F"; "G"].

Definition fresh (f : file_state) : World := mkWorld 0 0 0 f [].

(** Friday 2024-01-05 and Saturday 2024-01-06. *)
Definition friday (h m : Z) : datetime := mkdt 2024 1 5 h m 0 0.
Definition saturday (h m : Z) : datetime := mkdt 2024 1 6 h m 0 0.

(** ** Further notions *)

Definition is_crawl (e : event) : bool :=
  match e with EvCrawl => true | _ => false end.

Definition is_notify (e : event) : bool :=
  match e with EvNotify _ => true | _ => false end.

Definition is_post (e : event) : bool :=
  match e with EvPost _ => true | _ => false end.

Definition is_sleep (e : event) : bool :=
  match e with EvSleep _ => true | _ => false end.

(** How many of [evs] satisfy [p]. *)
Definition count_ev (p : event -> bool) (evs : list event) : nat :=
  List.length (filter p evs).

(** [v] spells [true] in some mix of upper and lower case. *)
Definition spells_true (v : string) : Prop :=
  exists c1 c2 c3 c4,
    v = String c1 (String c2 (String c3 (String c4 EmptyString))) /\
    (c1 = "t" \/ c1 = "T")%char /\ (c2 = "r" \/ c2 = "R")%char /\
    (c3 = "u" \/ c3 = "U")%char /\ (c4 = "e" \/ c4 = "E")%char.

(** No key of [status] is the string [key]. *)
Fixpoint lacks_key (status : list (pyval * pyval)) (key : string) : bool :=
  match status with
  | [] => true
  | (VStr k, _) :: r => negb (String.eqb k key) && lacks_key r key
  | _ :: r => lacks_key r key
  end.

(** No variable is set: no webhook, test mode off; the page lists seven
    elements and the webhook, were it asked, would accept. *)
Definition env_bare (t0 : datetime) : Env :=
  {| environ := fun _ => None;
     py_eval := eval_literal;
     clock := clock (env_at t0);
     http_get := fun _ => Some seven_items;
     http_post := fun _ _ => PostReply (VInt 0);
     fs_write := fun _ => Written |}.

(** The environment [E] with every attempt to write the ledger coming to
    [a]. *)
Definition with_disk (E : Env) (a : write_result) : Env :=
  {| environ := environ E;
     py_eval := py_eval E;
     clock := clock E;
     http_get := http_get E;
     http_post := http_post E;
     fs_write := fun _ => a |}.

(** A text that does not begin inside a whitespace character of several
    bytes. *)
Definition low_head (b : string) : Prop :=
  match b with
  | EmptyString => True
  | String c _ => code c < 128
  end.

(** Nothing but whitespace of one byte. *)
Fixpoint blank_only (s : string) : bool :=
  match s with
  | EmptyString => true
  | String c r => isspace c && blank_only r
  end.

(** The world [w] with [f] for a ledger file. *)
Definition with_file (w : World) (f : file_state) : World :=
  mkWorld (ticks w) (gets w) (posts w) f (trace w).

(** ** Proof steps *)

Import Display.

Ltac use_steady H :=
  let T := fresh "T" in let G := fresh "G" in let P := fresh "P" in
  let F := fresh "F" in let R := fresh "R" in
  destruct H as (T & G & P & F & R);
  cbn [ticks gets posts status_file trace] in T, G, P, F, R.

Ltac end_wait :=
  repeat match goal with
  | H : next_day_wait _ _ _ _ _ |- _ =>
      unfold next_day_wait in H; destruct (add_days _ _) in H; destruct H as [-> ->]
  end.

Ltac cycle_cases H := inversion H; subst; clear H; end_wait.

(** Closes the paths that the three gates before the fetch rule out:
    [Hp] the calendar check passes, [Hl] the ledger says "pushed" for no
    date, [Hh] every reading of the clock is inside the trading hours. *)
Ltac gates_open Hp Hl Hh :=
  try (exfalso; destruct Hp as [Hp|Hp]; [congruence | lia]);
  try (exfalso; eapply Hl; eassumption);
  try (exfalso;
       match goal with
       | H : in_hours_at _ _ _ = Ok false |- _ => rewrite Hh in H; discriminate H
       end).

Ltac in_cases H :=
  cbn [In app] in H;
  repeat match type of H with
         | _ \/ _ => destruct H as [H|H]
         end;
  try contradiction; try discriminate.

Ltac not_delivered :=
  let text := fresh "text" in let Hin := fresh "Hin" in let Hacc := fresh "Hacc" in
  intros (text & Hin & Hacc); in_cases Hin;
  try (injection Hin as <-; contradiction).

Ltac settle :=
  repeat split; intros;
  try (match goal with H : In _ _ |- _ => solve [in_cases H] end);
  try (match goal with H : delivered _ _ _ |- _ => exfalso; revert H; solve [not_delivered] end);
  try (match goal with |- ~ delivered _ _ _ => solve [not_delivered] end);
  try congruence; try discriminate; try reflexivity; try assumption; try contradiction.

(** * Properties *)

(** ** Calendar policy *)

Lemma weekday_range (t : datetime) : 0 <= weekday t < 7.
Proof. unfold weekday. apply Z.mod_pos_bound. lia. Qed.

(** C4. With the override off [is_trading_day] answers true exactly on the
    weekdays 0..4 (Monday to Friday) and false on 5 and 6 (Saturday and
    Sunday); with the override on it answers true whatever the day. *)
Theorem is_trading_day_weekdays (E : Env) (w : World) :
  let t := clock E (ticks w) in
  (TEST_MODE E = true -> fst (is_trading_day E w) = Ok true) /\
  (TEST_MODE E = false ->
     exists b, fst (is_trading_day E w) = Ok b /\
       (b = true <-> 0 <= weekday t <= 4) /\
       (b = false <-> weekday t = 5 \/ weekday t = 6)).
Proof.
  intros t. unfold is_trading_day. split; intros HT; rewrite HT.
  - reflexivity.
  - exists (weekday t <? 5). split; [reflexivity|].
    pose proof (weekday_range t) as R.
    destruct (Z.ltb_spec (weekday t) 5); split; split; intros; try lia; try congruence.
Qed.

Lemma is_trading_day_weekdays_witness :
  fst (is_trading_day (env_at (friday 10 0)) (fresh Absent)) = Ok true /\
  fst (is_trading_day (env_at (saturday 10 0)) (fresh Absent)) = Ok false /\
  fst (is_trading_day (env_test (saturday 10 0)) (fresh Absent)) = Ok true.
Proof.
  split; [|split].
  - destruct (is_trading_day_weekdays (env_at (friday 10 0)) (fresh Absent)) as [_ H].
    destruct (H eq_refl) as [b [Hb [Ht _]]].
    rewrite Hb. f_equal. apply Ht. vm_compute. split; discriminate.
  - destruct (is_trading_day_weekdays (env_at (saturday 10 0)) (fresh Absent)) as [_ H].
    destruct (H eq_refl) as [b [Hb [_ Hf]]].
    rewrite Hb. f_equal. apply Hf. left. reflexivity.
  - destruct (is_trading_day_weekdays (env_test (saturday 10 0)) (fresh Absent)) as [H _].
    exact (H eq_refl).
Defined.

(** C3. With the override off [is_in_trading_hours] answers true exactly
    when the (hour, minute) of the clock lies, lexicographically, in
    [09:30, 11:30] or in [13:00, 15:00], the four bounds included: true at
    09:30, 11:30, 13:00 and 15:00, false at 09:29 and 15:01.  With the
    override on it answers true at any time. *)
Theorem is_in_trading_hours_windows (E : Env) (w : World) :
  let t := clock E (ticks w) in
  (TEST_MODE E = true -> fst (is_in_trading_hours E init w) = Ok true) /\
  (TEST_MODE E = false ->
     exists b, fst (is_in_trading_hours E init w) = Ok b /\
       (b = true <->
          hm_within (9, 30) (11, 30) (hm_of t) \/ hm_within (13, 0) (15, 0) (hm_of t)) /\
       (In (hm_of t) [(9, 30); (11, 30); (13, 0); (15, 0)] -> b = true) /\
       (In (hm_of t) [(9, 29); (15, 1)] -> b = false)).
Proof.
  intros t. unfold is_in_trading_hours. split; intros HT; rewrite HT.
  - reflexivity.
  - cbn [init trading_hours morning afternoon bind now ret fst].
    fold t. eexists. split; [reflexivity|].
    assert (Hiff : forall h m,
      (((9 <? h) || ((h =? 9) && (30 <=? m))) && ((h <? 11) || ((h =? 11) && (m <=? 30)))
       || ((13 <? h) || ((h =? 13) && (0 <=? m))) && ((h <? 15) || ((h =? 15) && (m <=? 0))))
      = true <->
      hm_within (9, 30) (11, 30) (h, m) \/ hm_within (13, 0) (15, 0) (h, m)).
    { intros h m. unfold hm_within, hm_le. cbn [fst snd].
      rewrite !orb_true_iff, !andb_true_iff, !orb_true_iff, !andb_true_iff.
      rewrite !Z.ltb_lt, !Z.eqb_eq, !Z.leb_le. lia. }
    split; [apply Hiff|].
    unfold hm_of. split; intros Hin.
    + apply Hiff. unfold hm_within, hm_le. cbn [fst snd].
      cbn [In] in Hin.
      repeat (destruct Hin as [Hin|Hin]; [inversion Hin; lia|]); try contradiction.
    + cbn [In] in Hin.
      repeat (destruct Hin as [Hin|Hin];
              [injection Hin as Hh Hm; rewrite <- Hh, <- Hm; reflexivity|]);
        try contradiction.
Qed.

Lemma is_in_trading_hours_windows_witness :
  fst (is_in_trading_hours (env_at (friday 11 30)) init (fresh Absent)) = Ok true /\
  fst (is_in_trading_hours (env_at (friday 15 1)) init (fresh Absent)) = Ok false /\
  fst (is_in_trading_hours (env_test (friday 15 1)) init (fresh Absent)) = Ok true.
Proof.
  split; [|split].
  - destruct (is_in_trading_hours_windows (env_at (friday 11 30)) (fresh Absent)) as [_ H].
    destruct (H eq_refl) as [b [Hb [_ [Ht _]]]].
    rewrite Hb. f_equal. apply Ht. right. left. reflexivity.
  - destruct (is_in_trading_hours_windows (env_at (friday 15 1)) (fresh Absent)) as [_ H].
    destruct (H eq_refl) as [b [Hb [_ [_ Hf]]]].
    rewrite Hb. f_equal. apply Hf. right. left. reflexivity.
  - destruct (is_in_trading_hours_windows (env_test (friday 15 1)) (fresh Absent)) as [H _].
    exact (H eq_refl).
Defined.

(** ** Notification ledger: reading *)

Lemma eq_str_true (v : pyval) (s : string) : eq_str v s = true <-> v = VStr s.
Proof.
  destruct v; cbn; split; intros H; try discriminate.
  - apply String.eqb_eq in H. now subst.
  - injection H as ->. apply String.eqb_refl.
Qed.

Lemma has_pushed_today_total (E : Env) (w : World) :
  exists b, fst (has_pushed_today E w) = Ok b.
Proof.
  unfold has_pushed_today, bind, read_status, ret, now.
  destruct (status_file w) as [| |text]; try (eexists; reflexivity).
  destruct (String.eqb (strip text) EmptyString); try (eexists; reflexivity).
  destruct (py_eval E (strip text)) as [[]|]; eexists; reflexivity.
Qed.

Lemma has_pushed_today_true (E : Env) (w : World) :
  fst (has_pushed_today E w) = Ok true <->
  ledger_says E (status_file w) (strftime_date (clock E (ticks w))).
Proof.
  unfold has_pushed_today, bind, read_status, ret, now, ledger_says.
  destruct (status_file w) as [| |text]; cbn [fst].
  1,2: split; [discriminate | intros (t0 & st & H & _); discriminate].
  destruct (String.eqb_spec (strip text) EmptyString) as [He|He].
  { split; [discriminate | intros (t0 & st & H & Hn & _)].
    injection H as <-. contradiction. }
  destruct (py_eval E (strip text)) as [v|] eqn:Hv.
  2: { split; [discriminate | intros (t0 & st & H & _ & Hs & _)].
       injection H as <-. congruence. }
  destruct v as [| | | | |status];
    try (split; [discriminate | intros (t0 & st & H & _ & Hs & _)];
         injection H as <-; congruence).
  cbn [fst]. split.
  - intros H. injection H as H. apply eq_str_true in H.
    exists text, status. repeat split; assumption.
  - intros (t0 & st & H & _ & Hs & Hd). injection H as <-.
    rewrite Hv in Hs. injection Hs as <-.
    f_equal. apply eq_str_true. assumption.
Qed.

(** C2. [has_pushed_today] always answers; the answer is false, and
    nothing changes, when the ledger file is absent, unreadable, blank,
    rejected by [eval] or not a dict; the answer is true only (indeed
    exactly) when the record's [last_pushed_date] is the string of today's
    date, [YYYY-MM-DD]. *)
Theorem has_pushed_today_fail_open (E : Env) (w : World) :
  (exists b, fst (has_pushed_today E w) = Ok b) /\
  (status_file w = Absent \/ status_file w = Unreadable \/
   (exists text, status_file w = Contents text /\
      (strip text = EmptyString \/ py_eval E (strip text) = None \/
       exists v, py_eval E (strip text) = Some v /\ forall d, v <> VDict d)) ->
   has_pushed_today E w = (Ok false, w)) /\
  (fst (has_pushed_today E w) = Ok true <->
   ledger_says E (status_file w) (strftime_date (clock E (ticks w)))).
Proof.
  split; [apply has_pushed_today_total|]. split; [|apply has_pushed_today_true].
  unfold has_pushed_today, bind, read_status, ret.
  intros [H|[H|(text & H & Hc)]]; rewrite H; try reflexivity.
  destruct Hc as [Hc|[Hc|(v & Hc & Hv)]]; rewrite Hc.
  - reflexivity.
  - destruct (String.eqb _ _); reflexivity.
  - destruct (String.eqb _ _); [reflexivity|].
    destruct v; try reflexivity. exfalso. eapply Hv. reflexivity.
Qed.

Lemma has_pushed_today_fail_open_witness :
  has_pushed_today (env_at (friday 10 0)) (fresh (Contents "{'last_pushed_date': "))
  = (Ok false, fresh (Contents "{'last_pushed_date': ")) /\
  has_pushed_today (env_at (friday 10 0)) (fresh Absent) = (Ok false, fresh Absent).
Proof.
  split.
  - apply (has_pushed_today_fail_open (env_at (friday 10 0))
             (fresh (Contents "{'last_pushed_date': "))).
    right. right. eexists. split; [reflexivity|]. right. left. vm_compute. reflexivity.
  - apply (has_pushed_today_fail_open (env_at (friday 10 0)) (fresh Absent)).
    left. reflexivity.
Defined.

(** ** The [__main__] block *)

(** C7, as the code has it.  The guard reads [os.argv]; the [os] module
    has no such attribute, so every invocation stops with an uncaught
    [AttributeError] before anything else happens: with [clear] the
    ledger file is not removed and the exit status is not 0, and without
    it the loop is never entered. *)
Theorem main_raises_attribute_error (E : Env) (argv : list string) (n : nat) (w : World) :
  main E argv n w = (Raise AttributeError, w).
Proof.
  assert (Hos : module_argv "os" argv w = (Raise AttributeError, w)).
  { unfold module_argv, imported. cbn [existsb]. reflexivity. }
  unfold main, bind. rewrite Hos. reflexivity.
Qed.

(** The same at the invocation [new_stock_pusher.py clear] over an
    existing ledger. *)
Lemma main_clear_keeps_ledger :
  let w := fresh (Contents (ledger_text (friday 10 0) (friday 10 0))) in
  main (env_at (friday 10 0)) ["new_stock_pusher.py"; "clear"] 1 w = (Raise AttributeError, w).
Proof. reflexivity. Qed.

(** ** Calendar arithmetic *)

Lemma month_day_checked (leap : bool) :
  forallb (month_day_check leap) (seq 0 (if leap then 366 else 365)) = true.
Proof. destruct leap; vm_compute; reflexivity. Qed.

Lemma month_day_spec (n : Z) (leap : bool) :
  0 <= n < 365 + b2z leap ->
  1 <= fst (month_day n leap) <= 12 /\ 1 <= snd (month_day n leap) /\
  tbl DAYS_BEFORE_MONTH (fst (month_day n leap))
  + b2z ((2 <? fst (month_day n leap)) && leap) + snd (month_day n leap) = n + 1.
Proof.
  intros Hn.
  pose proof (month_day_checked leap) as H.
  rewrite forallb_forall in H.
  specialize (H (Z.to_nat n)).
  assert (Hin : In (Z.to_nat n) (seq 0 (if leap then 366 else 365))).
  { apply in_seq. destruct leap; cbn [b2z] in Hn; lia. }
  specialize (H Hin). unfold month_day_check in H.
  rewrite Z2Nat.id in H by lia.
  destruct (month_day n leap) as [m d]. cbn [fst snd].
  rewrite !andb_true_iff, !Z.leb_le, Z.eqb_eq in H. lia.
Qed.

Lemma ymd2ord_ord2ymd (n : Z) :
  1 <= n -> let '(y, m, d) := ord2ymd n in ymd2ord y m d = n.
Proof.
  intros Hn. unfold ord2ymd, DI400Y, DI100Y, DI4Y. cbv zeta.
  set (n0 := n - 1).
  set (a := n0 / 146097). set (r1 := n0 mod 146097).
  set (b := r1 / 36524). set (r2 := r1 mod 36524).
  set (c := r2 / 1461). set (r3 := r2 mod 1461).
  set (e := r3 / 365). set (r4 := r3 mod 365).
  assert (H1 : n0 = 146097 * a + r1 /\ 0 <= r1 < 146097).
  { split; [apply Z.div_mod; lia | apply Z.mod_pos_bound; lia]. }
  assert (H2 : r1 = 36524 * b + r2 /\ 0 <= r2 < 36524).
  { split; [apply Z.div_mod; lia | apply Z.mod_pos_bound; lia]. }
  assert (H3 : r2 = 1461 * c + r3 /\ 0 <= r3 < 1461).
  { split; [apply Z.div_mod; lia | apply Z.mod_pos_bound; lia]. }
  assert (H4 : r3 = 365 * e + r4 /\ 0 <= r4 < 365).
  { split; [apply Z.div_mod; lia | apply Z.mod_pos_bound; lia]. }
  assert (Ha : 0 <= a) by (apply Z.div_pos; lia).
  clearbody a r1 b r2 c r3 e r4.
  assert (Hb : 0 <= b <= 4) by lia.
  assert (Hc : 0 <= c <= 24) by lia.
  assert (He : 0 <= e <= 4) by lia.
  destruct ((e =? 4) || (b =? 4)) eqn:Hedge.
  - unfold ymd2ord, days_before_year, days_before_month, is_leap.
    change (tbl DAYS_BEFORE_MONTH 12) with 334. change (2 <? 12) with true.
    cbn [andb].
    apply orb_true_iff in Hedge. rewrite !Z.eqb_eq in Hedge.
    set (Y := a * 400 + 1 + b * 100 + c * 4 + e - 1).
    assert (HY4 : Y mod 4 = 0) by (subst Y; Z.to_euclidean_division_equations; lia).
    assert (HY : Y mod 100 <> 0 \/ Y mod 400 = 0) by (subst Y; Z.to_euclidean_division_equations; lia).
    rewrite HY4. cbn [Z.eqb andb].
    replace (negb (Y mod 100 =? 0) || (Y mod 400 =? 0)) with true.
    2:{ symmetry. apply orb_true_iff. rewrite negb_true_iff, Z.eqb_neq, Z.eqb_eq. assumption. }
    cbn [b2z]. subst Y. Z.to_euclidean_division_equations. lia.
  - apply orb_false_iff in Hedge. rewrite !Z.eqb_neq in Hedge.
    set (leap := (e =? 3) && (negb (c =? 24) || (b =? 3))).
    assert (Hr4 : 0 <= r4 < 365 + b2z leap) by (destruct leap; cbn [b2z]; lia).
    pose proof (month_day_spec r4 leap Hr4) as Hmd.
    destruct (month_day r4 leap) as [m d]. cbn [fst snd] in Hmd.
    unfold ymd2ord, days_before_month.
    set (Y := a * 400 + 1 + b * 100 + c * 4 + e).
    assert (HL : is_leap Y = leap).
    { unfold is_leap, leap. subst Y.
      destruct (Z.eqb_spec e 3), (Z.eqb_spec c 24), (Z.eqb_spec b 3); cbn [negb orb andb];
      repeat match goal with
        |- context [?x mod ?k =? 0] => destruct (Z.eqb_spec (x mod k) 0)
      end; cbn [negb orb andb]; try reflexivity; exfalso;
      Z.to_euclidean_division_equations; lia. }
    rewrite HL.
    assert (HD : days_before_year Y = 146097 * a + 36524 * b + 1461 * c + 365 * e).
    { unfold days_before_year. subst Y. Z.to_euclidean_division_equations. lia. }
    rewrite HD. lia.
Qed.

(** ** The text of the ledger *)

Lemma append_assoc (a b c : string) : (a +++ b) +++ c = a +++ (b +++ c).
Proof. induction a as [|x a IH]; cbn; [reflexivity | now rewrite IH]. Qed.

Lemma plain_append (a b : string) : plain (a +++ b) = plain a && plain b.
Proof.
  induction a as [|x a IH]; cbn; [reflexivity|].
  rewrite IH. apply andb_assoc.
Qed.

Lemma plain_char_facts (c : ascii) :
  plain_char c = true ->
  32 <= code c /\ code c <> 127 /\ Ascii.eqb c quote = false /\
  Ascii.eqb c dquote = false /\ Ascii.eqb c backslash = false /\
  Ascii.eqb c newline || Ascii.eqb c (chr 13) || Ascii.eqb c (chr 0) = false.
Proof.
  unfold plain_char. rewrite !andb_true_iff, !negb_true_iff, Z.leb_le, Z.eqb_neq.
  intros [[[[H1 H2] H3] H4] H5]. repeat split; try assumption.
  rewrite !orb_false_iff. repeat split.
  - destruct (Ascii.eqb_spec c newline) as [->|]; [|reflexivity].
    vm_compute in H1. exfalso. apply H1. reflexivity.
  - destruct (Ascii.eqb_spec c (chr 13)) as [->|]; [|reflexivity].
    vm_compute in H1. exfalso. apply H1. reflexivity.
  - destruct (Ascii.eqb_spec c (chr 0)) as [->|]; [|reflexivity].
    vm_compute in H1. exfalso. apply H1. reflexivity.
Qed.

Lemma repr_char_plain (c : ascii) :
  plain_char c = true -> repr_char quote c = String c EmptyString.
Proof.
  intros H. destruct (plain_char_facts c H) as (H1 & H2 & H3 & H4 & H5 & H6).
  unfold repr_char. rewrite H5, H3.
  destruct (Z.eqb_spec (code c) 10); [lia|].
  destruct (Z.eqb_spec (code c) 13); [lia|].
  destruct (Z.eqb_spec (code c) 9); [lia|].
  destruct (Z.ltb_spec (code c) 32); [lia|].
  destruct (Z.eqb_spec (code c) 127); [lia|]. reflexivity.
Qed.

Lemma repr_body_plain (s : string) : plain s = true -> repr_body quote s = s.
Proof.
  induction s as [|c s IH]; cbn [plain repr_body]; [reflexivity|].
  rewrite andb_true_iff. intros [Hc Hs].
  rewrite (repr_char_plain c Hc), (IH Hs). reflexivity.
Qed.

Lemma contains_quote_plain (s : string) : plain s = true -> contains quote s = false.
Proof.
  induction s as [|c s IH]; cbn [plain contains]; [reflexivity|].
  rewrite andb_true_iff. intros [Hc Hs].
  destruct (plain_char_facts c Hc) as (_ & _ & H3 & _).
  rewrite Ascii.eqb_sym, H3, (IH Hs). reflexivity.
Qed.

Lemma repr_plain (s : string) :
  plain s = true -> repr s = String quote (s +++ String quote EmptyString).
Proof.
  intros H. unfold repr. rewrite (contains_quote_plain s H). cbn [andb].
  rewrite (repr_body_plain s H). reflexivity.
Qed.

Lemma scan_plain (s rest : string) :
  plain s = true -> scan quote (s +++ String quote rest) = Some (s, rest).
Proof.
  induction s as [|c s IH]; cbn [plain append scan].
  - intros _. rewrite Ascii.eqb_refl. reflexivity.
  - rewrite andb_true_iff. intros [Hc Hs].
    destruct (plain_char_facts c Hc) as (_ & _ & H3 & _ & H5 & H6).
    rewrite H3, H5, H6, (IH Hs). reflexivity.
Qed.

Lemma literal_repr (s rest : string) :
  plain s = true -> literal (repr s +++ rest) = Some (s, rest).
Proof.
  intros H. rewrite (repr_plain s H). cbn [append literal].
  rewrite Ascii.eqb_refl. cbn [orb]. rewrite append_assoc. cbn [append].
  apply scan_plain, H.
Qed.

Lemma skip_ws_repr (s rest : string) :
  plain s = true -> skip_ws (repr s +++ rest) = repr s +++ rest.
Proof. intros H. rewrite (repr_plain s H). reflexivity. Qed.

Lemma digit_plain (d : Z) : 0 <= d < 10 -> plain_char (digit d) = true.
Proof.
  intros H.
  assert (Hd : d = 0 \/ d = 1 \/ d = 2 \/ d = 3 \/ d = 4 \/ d = 5 \/ d = 6 \/ d = 7
               \/ d = 8 \/ d = 9) by lia.
  repeat (destruct Hd as [->|Hd]; [reflexivity|]). subst. reflexivity.
Qed.

Lemma mod10 (n : Z) : 0 <= n mod 10 < 10.
Proof. apply Z.mod_pos_bound. lia. Qed.

Lemma pad2_plain (n : Z) : plain (pad2 n) = true.
Proof.
  unfold pad2. cbn [plain]. rewrite !digit_plain by apply mod10. reflexivity.
Qed.

Lemma pad4_plain (n : Z) : plain (pad4 n) = true.
Proof.
  unfold pad4. cbn [plain]. rewrite !digit_plain by apply mod10.
  apply pad2_plain.
Qed.

Lemma strftime_date_plain (t : datetime) : plain (strftime_date t) = true.
Proof.
  unfold strftime_date. rewrite !plain_append, pad4_plain, !pad2_plain. reflexivity.
Qed.

Lemma strftime_time_plain (t : datetime) : plain (strftime_time t) = true.
Proof.
  unfold strftime_time. rewrite !plain_append, !pad2_plain. reflexivity.
Qed.

Lemma ledger_text_shape (d t : datetime) :
  ledger_text d t =
  String "{" (repr "last_pushed_date" +++ ": " +++ repr (strftime_date d) +++
              ", " +++ repr "last_pushed_time" +++ ": " +++ repr (strftime_time t) +++ "}").
Proof.
  unfold ledger_text, str_of_dict. cbn [map join fst snd].
  rewrite !append_assoc. reflexivity.
Qed.

Lemma skip_ws_blank (s : string) : skip_ws (String " " s) = skip_ws s.
Proof. reflexivity. Qed.

Lemma expect_colon (s : string) : expect ":" (skip_ws (String ":" s)) = Some s.
Proof. reflexivity. Qed.

(** One [key: value] pair of plain strings, read off the front. *)
Lemma entries_pair (fuel : nat) (k v rest : string) (acc : list (pyval * pyval)) :
  plain k = true -> plain v = true ->
  entries (S fuel) (repr k +++ ": " +++ repr v +++ rest) acc =
  let acc' := dict_set acc k (VStr v) in
  match skip_ws rest with
  | String "}" rest' => if String.eqb (skip_ws rest') EmptyString then Some acc' else None
  | String "," s4 => entries fuel s4 acc'
  | _ => None
  end.
Proof.
  intros Hk Hv. cbn [entries].
  rewrite (skip_ws_repr k _ Hk).
  assert (Hq : forall (A : Type) (x : string -> A) (y : string -> A) r,
             match repr k +++ r with
             | String "}" rest' => x rest'
             | s0 => y s0
             end = y (repr k +++ r)).
  { intros A x y r. rewrite (repr_plain k Hk). reflexivity. }
  rewrite (Hq _ (fun rest' => if String.eqb (skip_ws rest') EmptyString then Some acc else None)
              (fun s0 => match literal s0 with
                         | Some (k0, s1) => _
                         | None => None
                         end)).
  rewrite (literal_repr k _ Hk). cbn [append].
  rewrite expect_colon, skip_ws_blank.
  rewrite (skip_ws_repr v _ Hv), (literal_repr v _ Hv). reflexivity.
Qed.

Lemma entries_blank (fuel : nat) (s : string) (acc : list (pyval * pyval)) :
  entries fuel (String " " s) acc = entries fuel s acc.
Proof. destruct fuel; reflexivity. Qed.

Lemma eval_display_ledger_text (d t : datetime) :
  eval_display (ledger_text d t) =
  Some [(VStr "last_pushed_date", VStr (strftime_date d));
        (VStr "last_pushed_time", VStr (strftime_time t))].
Proof.
  rewrite ledger_text_shape. unfold eval_display.
  set (body := repr "last_pushed_date" +++ _).
  assert (Hf : exists fuel, String.length body = S (S fuel)).
  { subst body. rewrite (repr_plain "last_pushed_date") by reflexivity.
    cbn [append String.length]. eexists. reflexivity. }
  destruct Hf as [fuel Hf]. rewrite Hf. subst body.
  rewrite entries_pair by (reflexivity || apply strftime_date_plain).
  cbn zeta. cbn [append].
  change (skip_ws (String "," ?x)) with (String "," x). cbn iota.
  rewrite entries_blank.
  exact (entries_pair (S fuel) "last_pushed_time" (strftime_time t) "}" _
           eq_refl (strftime_time_plain t)).
Qed.

Lemma lstrip_eq (s : string) :
  lstrip s = match space_prefix s with Some r => lstrip r | None => s end.
Proof.
  destruct s as [|c [|d [|e r]]]; cbn [lstrip space_prefix]; try reflexivity.
  - destruct (isspace c); reflexivity.
  - destruct (isspace c); [reflexivity|]. destruct (isspace2 _ _); reflexivity.
  - destruct (isspace c); [reflexivity|]. destruct (isspace2 _ _); [reflexivity|].
    destruct (isspace3 _ _ _); reflexivity.
Qed.

Lemma isspace_low (c : ascii) : isspace c = true -> code c < 128.
Proof. unfold isspace. cbv zeta. lia. Qed.

Lemma isspace2_high (a b : Z) : isspace2 a b = true -> 128 <= b.
Proof. unfold isspace2. lia. Qed.

Lemma isspace3_high (a b c : Z) : isspace3 a b c = true -> 128 <= b /\ 128 <= c.
Proof. unfold isspace3. lia. Qed.

Lemma space_prefix_length (s r : string) :
  space_prefix s = Some r -> (String.length r < String.length s)%nat.
Proof.
  destruct s as [|c [|d [|e r2]]]; cbn [space_prefix String.length]; try discriminate.
  - destruct (isspace c); [|discriminate]. intros [= <-]. cbn. lia.
  - destruct (isspace c); [intros [= <-]; cbn; lia|].
    destruct (isspace2 _ _); [|discriminate]. intros [= <-]. cbn. lia.
  - destruct (isspace c); [intros [= <-]; cbn; lia|].
    destruct (isspace2 _ _); [intros [= <-]; cbn; lia|].
    destruct (isspace3 _ _ _); [|discriminate]. intros [= <-]. cbn. lia.
Qed.

Lemma space_prefix_app (x b r : string) :
  space_prefix x = Some r -> space_prefix (x +++ b) = Some (r +++ b).
Proof.
  destruct x as [|c [|d [|e r2]]]; cbn [space_prefix append]; try discriminate.
  - destruct (isspace c); [|discriminate]. now intros [= <-].
  - destruct (isspace c); [now intros [= <-]|].
    destruct (isspace2 _ _); [|discriminate]. now intros [= <-].
  - destruct (isspace c); [now intros [= <-]|].
    destruct (isspace2 _ _); [now intros [= <-]|].
    destruct (isspace3 _ _ _); [|discriminate]. now intros [= <-].
Qed.

Lemma space_prefix_app_none (x b : string) :
  low_head b -> x <> EmptyString -> space_prefix x = None ->
  space_prefix (x +++ b) = None.
Proof.
  intros Hb Hx.
  destruct x as [|c [|d [|e r2]]]; [congruence| | |]; cbn [space_prefix append].
  - destruct (isspace c); [discriminate|]. intros _.
    destruct b as [|d b]; [reflexivity|]. cbn in Hb.
    destruct (isspace2 _ _) eqn:H2; [apply isspace2_high in H2; lia|].
    destruct b as [|e b]; [reflexivity|].
    destruct (isspace3 _ _ _) eqn:H3; [apply isspace3_high in H3; lia|reflexivity].
  - destruct (isspace c); [discriminate|].
    destruct (isspace2 _ _); [discriminate|]. intros _.
    destruct b as [|e b]; [reflexivity|]. cbn in Hb.
    destruct (isspace3 _ _ _) eqn:H3; [apply isspace3_high in H3; lia|reflexivity].
  - destruct (isspace c); [discriminate|].
    destruct (isspace2 _ _); [discriminate|].
    destruct (isspace3 _ _ _); [discriminate|reflexivity].
Qed.

Lemma by_length (P : string -> Prop) :
  (forall s, (forall r, (String.length r < String.length s)%nat -> P r) -> P s) ->
  forall s, P s.
Proof.
  intros H s. remember (String.length s) as n eqn:Hn.
  revert s Hn. induction n as [n IH] using lt_wf_ind. intros s ->.
  apply H. intros r Hr. exact (IH _ Hr r eq_refl).
Qed.

Lemma lstrip_app (x b : string) :
  low_head b ->
  lstrip (x +++ b) = if String.eqb (lstrip x) EmptyString then lstrip b else lstrip x +++ b.
Proof.
  intros Hb. induction x as [x IH] using by_length.
  rewrite (lstrip_eq x). destruct (space_prefix x) as [r|] eqn:Hp.
  - rewrite (lstrip_eq (x +++ b)), (space_prefix_app x b r Hp).
    apply IH. now apply space_prefix_length.
  - destruct x as [|c x]; [reflexivity|].
    rewrite (lstrip_eq (String c x +++ b)), space_prefix_app_none by (congruence || assumption).
    reflexivity.
Qed.

Lemma lstrip_app_space (x z : string) :
  lstrip x = EmptyString -> lstrip (x +++ z) = lstrip z.
Proof.
  induction x as [x IH] using by_length. intros Hx.
  rewrite (lstrip_eq x) in Hx. destruct (space_prefix x) as [r|] eqn:Hp.
  - rewrite (lstrip_eq (x +++ z)), (space_prefix_app x z r Hp).
    apply IH; [now apply space_prefix_length|exact Hx].
  - subst x. reflexivity.
Qed.

Lemma lstrip_repr_head (s : string) : lstrip (String "{" s) = String "{" s.
Proof. destruct s as [|d [|e s]]; reflexivity. Qed.

Lemma rstrip_closed (s : string) : rstrip (s +++ "}") = s +++ "}".
Proof.
  induction s as [|c s IH]; [reflexivity|].
  cbn [append rstrip]. rewrite IH.
  change (String c (s +++ "}")) with (String c s +++ "}").
  rewrite lstrip_app by reflexivity.
  destruct (String.eqb (lstrip (String c s)) EmptyString); [reflexivity|].
  destruct (lstrip (String c s)); reflexivity.
Qed.

Lemma strip_ledger_text (d t : datetime) :
  strip (ledger_text d t) = ledger_text d t /\ ledger_text d t <> EmptyString.
Proof.
  unfold ledger_text, str_of_dict. split; [|discriminate].
  unfold strip. cbn [append]. rewrite lstrip_repr_head.
  change (String "{" (?x +++ "}")) with (("{" +++ x) +++ "}").
  apply rstrip_closed.
Qed.

Lemma digit_inj (a b : Z) : 0 <= a < 10 -> 0 <= b < 10 -> digit a = digit b -> a = b.
Proof.
  intros Ha Hb H. unfold digit, chr in H.
  apply (f_equal nat_of_ascii) in H.
  rewrite !nat_ascii_embedding in H by lia. lia.
Qed.

Lemma pad2_inj (a b : Z) : 0 <= a < 100 -> 0 <= b < 100 -> pad2 a = pad2 b -> a = b.
Proof.
  intros Ha Hb H. unfold pad2 in H. injection H as H1 H0.
  apply digit_inj in H1; [|apply mod10..].
  apply digit_inj in H0; [|apply mod10..].
  Z.to_euclidean_division_equations. lia.
Qed.

Lemma pad4_inj (a b : Z) : 0 <= a < 10000 -> 0 <= b < 10000 -> pad4 a = pad4 b -> a = b.
Proof.
  intros Ha Hb H. unfold pad4, pad2 in H. injection H as H3 H2 H1 H0.
  apply digit_inj in H3; [|apply mod10..].
  apply digit_inj in H2; [|apply mod10..].
  apply digit_inj in H1; [|apply mod10..].
  apply digit_inj in H0; [|apply mod10..].
  Z.to_euclidean_division_equations. lia.
Qed.

Lemma days_in_month_le (y m : Z) : days_in_month y m <= 31.
Proof.
  unfold days_in_month. destruct ((m =? 2) && is_leap y); [lia|].
  unfold tbl, DAYS_IN_MONTH.
  generalize (Z.to_nat m). intros k.
  do 13 (destruct k as [|k]; [cbn; lia|]).
  destruct k; cbn; lia.
Qed.

Lemma strftime_date_chars (t : datetime) :
  strftime_date t =
  String (digit (year t / 1000 mod 10)) (String (digit (year t / 100 mod 10))
    (String (digit (year t / 10 mod 10)) (String (digit (year t mod 10))
      (String "-" (String (digit (month t / 10 mod 10)) (String (digit (month t mod 10))
        (String "-" (pad2 (day t))))))))).
Proof. reflexivity. Qed.

Lemma strftime_date_inj (a b : datetime) :
  valid a -> valid b -> strftime_date a = strftime_date b -> same_date a b.
Proof.
  intros (Hy & Hm & Hd & _) (Hy' & Hm' & Hd' & _) H.
  pose proof (days_in_month_le (year a) (month a)) as La.
  pose proof (days_in_month_le (year b) (month b)) as Lb.
  rewrite !strftime_date_chars in H.
  injection H as Y3 Y2 Y1 Y0 M1 M0 D.
  assert (Hyy : pad4 (year a) = pad4 (year b)) by (unfold pad4, pad2; congruence).
  assert (Hmm : pad2 (month a) = pad2 (month b)) by (unfold pad2; congruence).
  unfold same_date. repeat split.
  - apply pad4_inj; [lia | lia | assumption].
  - apply pad2_inj; [lia | lia | assumption].
  - apply pad2_inj; [lia | lia | first [assumption | unfold pad2; congruence]].
Qed.

Lemma same_date_strftime (a b : datetime) :
  same_date a b -> strftime_date a = strftime_date b.
Proof. intros (Hy & Hm & Hd). unfold strftime_date. now rewrite Hy, Hm, Hd. Qed.

(** ** One iteration of the loop, stage by stage *)

Lemma steady_refl (w : World) : steady w w.
Proof. unfold steady. repeat split; lia. Qed.

Lemma steady_tick (w : World) :
  steady w (mkWorld (S (ticks w)) (gets w) (posts w) (status_file w) (trace w)).
Proof. unfold steady. cbn. repeat split; lia. Qed.

Lemma is_trading_day_stage (E : Env) (w : World) (r : result bool) (w' : World) :
  is_trading_day E w = (r, w') ->
  exists b, r = Ok b /\ steady w w' /\
    if b then TEST_MODE E = true \/ weekday (clock E (ticks w)) < 5
    else TEST_MODE E = false /\ 5 <= weekday (clock E (ticks w)).
Proof.
  unfold is_trading_day, bind, now, ret.
  destruct (TEST_MODE E); intros H; injection H as <- <-.
  - exists true. auto using steady_refl.
  - eexists. split; [reflexivity|]. split; [apply steady_tick|].
    destruct (Z.ltb_spec (weekday (clock E (ticks w))) 5); auto.
Qed.

Lemma has_pushed_today_stage (E : Env) (w : World) (r : result bool) (w' : World) :
  has_pushed_today E w = (r, w') ->
  exists b, r = Ok b /\ steady w w' /\
    if b then ledger_says E (status_file w) (strftime_date (clock E (ticks w))) /\
              ticks w' = S (ticks w)
    else ~ ledger_says E (status_file w) (strftime_date (clock E (ticks w))).
Proof.
  intros H.
  pose proof (has_pushed_today_true E w) as Ht. rewrite H in Ht. cbn [fst] in Ht.
  assert (Hs : exists b, r = Ok b /\ steady w w' /\ (b = true -> ticks w' = S (ticks w))).
  { revert H. unfold has_pushed_today, bind, read_status, ret, now.
    destruct (status_file w) as [| |text];
      try (intros H; injection H as <- <-; exists false;
           split; [reflexivity | split; [apply steady_refl | discriminate]]).
    destruct (String.eqb (strip text) EmptyString);
      try (intros H; injection H as <- <-; exists false;
           split; [reflexivity | split; [apply steady_refl | discriminate]]).
    destruct (py_eval E (strip text)) as [[]|];
      intros H; injection H as <- <-;
      try (exists false; split; [reflexivity | split; [apply steady_refl | discriminate]]).
    eexists. split; [reflexivity|]. split; [apply steady_tick | reflexivity]. }
  destruct Hs as (b & -> & Hs & Hk). exists b. split; [reflexivity|]. split; [assumption|].
  destruct b.
  - split; [apply Ht | apply Hk]; reflexivity.
  - intros Hl. apply Ht in Hl. discriminate.
Qed.

Lemma is_in_trading_hours_stage (E : Env) (self : NewStockPusher) (w : World)
  (r : result bool) (w' : World) :
  is_in_trading_hours E self w = (r, w') ->
  exists b, r = Ok b /\ steady w w' /\
    (b = false -> in_hours_at E self (ticks w) = Ok false /\ ticks w' = S (ticks w)).
Proof.
  unfold in_hours_at, is_in_trading_hours, bind, now, ret.
  destruct (TEST_MODE E).
  - intros H; injection H as <- <-. exists true. split; [reflexivity|].
    split; [apply steady_refl | discriminate].
  - cbn [ticks]. destruct (morning (trading_hours self)) as [[[a b] c] d].
    destruct (afternoon (trading_hours self)) as [[[a' b'] c'] d'].
    intros H; injection H as <- <-. eexists. split; [reflexivity|].
    split; [apply steady_tick|]. cbn [fst]. intros ->. split; reflexivity.
Qed.

Lemma crawl_new_stocks_run (E : Env) (w : World) :
  crawl_new_stocks E w =
  (Ok (option_map listing (http_get E (gets w))),
   mkWorld (ticks w) (S (gets w)) (posts w) (status_file w) (trace w ++ [EvCrawl])).
Proof.
  unfold crawl_new_stocks, bind, emit, get_items, ret. cbn.
  destruct (http_get E (gets w)); reflexivity.
Qed.

Lemma send_wechat_message_stage (E : Env) (content : string) (w : World)
  (r : result bool) (w' : World) :
  send_wechat_message E content w = (r, w') ->
  exists b, r = Ok b /\ status_file w' = status_file w /\
    ((WECHAT_WEBHOOK E = EmptyString /\ b = false /\ ticks w' = ticks w /\
      trace w' = (trace w ++ [EvNotify content])%list) \/
     (WECHAT_WEBHOOK E <> EmptyString /\ ticks w' = S (ticks w) /\
      let text := message_text content (clock E (ticks w)) in
      trace w' = (trace w ++ [EvNotify content; EvPost text])%list /\
      if b then accepted E (posts w) text else ~ accepted E (posts w) text)).
Proof.
  unfold send_wechat_message, bind, emit, now, post_message, ret.
  destruct (String.eqb_spec (WECHAT_WEBHOOK E) EmptyString) as [Hw|Hw].
  - intros H; injection H as <- <-. exists false. cbn. auto 10.
  - cbn [ticks gets posts status_file trace].
    set (text := message_text content (clock E (ticks w))).
    destruct (http_post E (posts w) text) as [|v] eqn:Hp;
      intros H; injection H as <- <-; eexists; (split; [reflexivity|]);
      cbn [ticks gets posts status_file trace]; (split; [reflexivity|]);
      right; (split; [assumption|]);
      (split; [reflexivity|]); rewrite <- app_assoc; (split; [reflexivity|]).
    + intros (v & Hv & _). congruence.
    + fold text. destruct (eq_zero v) eqn:Hz.
      * exists v. auto.
      * intros (v' & Hv & Hz'). rewrite Hp in Hv. injection Hv as <-. congruence.
Qed.

Lemma update_push_status_run (E : Env) (w : World) :
  update_push_status E w =
  match fs_write E (ticks w) with
  | OpenRaises => (Raise OSError, w)
  | WriteRaises rest =>
      (Raise OSError, mkWorld (S (S (ticks w))) (gets w) (posts w) (Contents rest) (trace w))
  | Written =>
      (Ok tt, mkWorld (S (S (ticks w))) (gets w) (posts w)
                (Contents (ledger_text (clock E (ticks w)) (clock E (S (ticks w)))))
                (trace w ++ [EvWrite (ledger_text (clock E (ticks w)) (clock E (S (ticks w))))]))
  end.
Proof.
  unfold update_push_status, bind, open_status, now, write_status.
  destruct (fs_write E (ticks w)); reflexivity.
Qed.

Lemma sleep_until_next_day_stage (E : Env) (w : World) (r : result unit) (w' : World) :
  sleep_until_next_day E w = (r, w') ->
  exists evs, trace w' = (trace w ++ evs)%list /\ status_file w' = status_file w /\
    forall p, next_day_wait E (ticks w) p
                (match r with Ok _ => Ok p | Raise e => Raise e end) evs.
Proof.
  unfold sleep_until_next_day, next_day_wait, bind, now, plus_one_day, sleep, emit, ret, raise.
  cbn [ticks gets posts status_file trace].
  destruct (add_days (clock E (ticks w)) 1) as [t'|]; intros H; injection H as <- <-.
  - eexists. cbn. repeat split.
  - exists []. cbn. rewrite app_nil_r. repeat split.
Qed.

Lemma run_cycle_paths (E : Env) (self : NewStockPusher) (w : World)
  (r : result phase) (w' : World) :
  run_cycle E self w = (r, w') ->
  exists evs, trace w' = (trace w ++ evs)%list /\ cycle E self w r (status_file w') evs.
Proof.
  unfold run_cycle, bind, sleep, emit, ret. unfold now at 1.
  destruct (is_trading_day E _) as [rb w2] eqn:H2.
  apply is_trading_day_stage in H2 as (trading & -> & S2 & C2). use_steady S2.
  cbn [ticks] in C2.
  destruct trading; cbn [negb].
  2: { intros H; injection H as <- <-. cbn [trace status_file].
       rewrite R, F. eexists. split; [reflexivity|].
       destruct C2. now apply cycle_not_trading_day. }
  assert (HC : calendar_passes E w) by exact C2.
  destruct (has_pushed_today E w2) as [rp w3] eqn:H3.
  apply has_pushed_today_stage in H3 as (pushed & -> & S3 & C3). use_steady S3.
  rewrite F in C3.
  destruct pushed.
  { destruct C3 as [C3 K3].
    destruct (sleep_until_next_day E w3) as [ru w4] eqn:H4.
    apply sleep_until_next_day_stage in H4 as (evs & R4 & F4 & N4).
    specialize (N4 AlreadyPushedToday). rewrite K3 in N4.
    assert (Hf : status_file w4 = status_file w) by congruence.
    assert (Ht : trace w4 = (trace w ++ evs)%list) by congruence.
    destruct ru; intros H; injection H as <- <-; exists evs; rewrite Hf;
      (split; [exact Ht|]);
      apply cycle_already_pushed with (k := ticks w2); auto; lia. }
  assert (HN : not_pushed E w) by (exists (ticks w2); split; [lia | exact C3]).
  destruct (is_in_trading_hours E self w3) as [ri w4] eqn:H4.
  apply is_in_trading_hours_stage in H4 as (inside & -> & S4 & C4). use_steady S4.
  destruct inside; cbn [negb].
  2: { destruct (C4 eq_refl) as [C4' K4]. unfold now. rewrite K4.
       intros H; injection H as <- <-. cbn [trace status_file].
       eexists. split; [rewrite R1, R0, R; reflexivity|].
       rewrite F1, F0, F.
       change (cycle E self w (Ok OutsideTradingHours) (status_file w)
                 [EvSleep (Z.max 0 (wait_outside self (clock E (S (ticks w3)))))]).
       apply (cycle_outside E self w (ticks w3)); auto; lia. }
  rewrite crawl_new_stocks_run.
  assert (Hg : gets w4 = gets w) by congruence.
  assert (Hf : status_file w4 = status_file w) by congruence.
  assert (Hr : trace w4 = trace w) by congruence.
  rewrite Hg, Hf, Hr.
  destruct (http_get E (gets w)) as [items|] eqn:Hget; cbn [option_map].
  2: { intros H; injection H as <- <-. cbn [trace status_file].
       eexists. split; [rewrite <- app_assoc; reflexivity|].
       now apply cycle_fetch_failed. }
  destruct (listing items) as [|s0 l0] eqn:Hl.
  { exfalso. unfold listing in Hl. destruct (map format_stock (firstn 5 items)); discriminate. }
  rewrite <- Hl. fold (content_of (listing items)).
  destruct (send_wechat_message E _ _) as [rs w5] eqn:H5.
  apply send_wechat_message_stage in H5 as (ok & -> & F5 & C5).
  cbn [ticks gets posts status_file trace] in F5, C5.
  destruct C5 as [(Hw & -> & K5 & R5) | (Hw & K5 & R5 & A5)].
  { intros H; injection H as <- <-. cbn [trace status_file].
    eexists. split; [rewrite R5, <- !app_assoc; reflexivity|].
    rewrite F5. now apply cycle_no_webhook. }
  assert (Hp : posts w4 = posts w) by congruence.
  rewrite Hp in A5.
  destruct ok.
  2: { intros H; injection H as <- <-. cbn [trace status_file].
       eexists. split; [rewrite R5, <- !app_assoc; reflexivity|].
       rewrite F5. apply (cycle_notify_failed E self w items (ticks w4)); auto; lia. }
  rewrite update_push_status_run. cbn [ticks gets posts status_file trace].
  rewrite K5.
  destruct (fs_write E (S (ticks w4))) as [|rest|] eqn:Hd.
  { intros H; injection H as <- <-.
    eexists. split; [rewrite R5, <- !app_assoc; reflexivity|].
    rewrite F5. apply (cycle_open_raises E self w items (ticks w4)); auto; lia. }
  { intros H; injection H as <- <-. cbn [trace status_file].
    eexists. split; [rewrite R5, <- !app_assoc; reflexivity|].
    apply (cycle_write_raises E self w items (ticks w4)); auto; lia. }
  destruct (sleep_until_next_day E _) as [ru w6] eqn:H6.
  apply sleep_until_next_day_stage in H6 as (evs & R6 & F6 & N6).
  cbn [ticks gets posts status_file trace] in R6, F6, N6.
  specialize (N6 Pushed).
  assert (Ht : trace w6 = (trace w ++ [EvCrawl; EvNotify (content_of (listing items));
                 EvPost (message_text (content_of (listing items)) (clock E (ticks w4)));
                 EvWrite (ledger_text (clock E (S (ticks w4))) (clock E (S (S (ticks w4)))))]
                 ++ evs)%list).
  { rewrite R6, R5, <- !app_assoc. reflexivity. }
  destruct ru; intros H; injection H as <- <-; eexists; rewrite F6;
    (split; [exact Ht|]);
    apply (cycle_pushed E self w items (ticks w4)); auto; lia.
Qed.

(** ** Waiting times *)

Lemma days_before_year_nonneg (y : Z) : 1 <= y -> 0 <= days_before_year y.
Proof. intros H. unfold days_before_year. Z.to_euclidean_division_equations. lia. Qed.

Lemma days_before_month_nonneg (y m : Z) : 1 <= m <= 12 -> 0 <= days_before_month y m.
Proof.
  intros Hm. unfold days_before_month.
  assert (Hb : 0 <= b2z ((2 <? m) && is_leap y)) by (destruct (_ && _); cbn; lia).
  assert (Ht : 0 <= tbl DAYS_BEFORE_MONTH m).
  { assert (Hc : m = 1 \/ m = 2 \/ m = 3 \/ m = 4 \/ m = 5 \/ m = 6 \/ m = 7 \/ m = 8
                 \/ m = 9 \/ m = 10 \/ m = 11 \/ m = 12) by lia.
    repeat (destruct Hc as [->|Hc]; [vm_compute; discriminate|]).
    subst. vm_compute. discriminate. }
  lia.
Qed.

Lemma toordinal_pos (t : datetime) : valid t -> 1 <= toordinal t.
Proof.
  intros (Hy & Hm & Hd & _). unfold toordinal, ymd2ord.
  pose proof (days_before_year_nonneg (year t)).
  pose proof (days_before_month_nonneg (year t) (month t)). lia.
Qed.

Lemma toordinal_add_days (t t' : datetime) :
  valid t -> add_days t 1 = Some t' -> toordinal t' = toordinal t + 1.
Proof.
  intros Hv. unfold add_days.
  destruct ((0 <? toordinal t + 1) && (toordinal t + 1 <=? MAXORDINAL)); [|discriminate].
  pose proof (toordinal_pos t Hv) as Hp.
  pose proof (ymd2ord_ord2ymd (toordinal t + 1)) as Hr.
  destruct (ord2ymd (toordinal t + 1)) as [[y m] d].
  intros H. injection H as <-. unfold toordinal at 1. cbn [year month day].
  apply Hr. lia.
Qed.

Lemma add_days_defined (t : datetime) :
  valid t -> toordinal t < MAXORDINAL -> exists t', add_days t 1 = Some t'.
Proof.
  intros Hv Hm. pose proof (toordinal_pos t Hv) as Hp. unfold add_days.
  destruct (Z.ltb_spec 0 (toordinal t + 1)); [|lia].
  destruct (Z.leb_spec (toordinal t + 1) MAXORDINAL); [|lia].
  cbn [andb]. destruct (ord2ymd _) as [[y m] d]. eexists. reflexivity.
Qed.

Lemma sub_us_next_0800 (t1 t2 t' : datetime) :
  toordinal t' = toordinal t1 + 1 ->
  sub_us (replace_hm t' 8 0) t2 = until_next_0800 t1 t2.
Proof.
  intros H. unfold sub_us, until_next_0800, us_of_day, replace_hm, toordinal in *.
  cbn [year month day hour minute second microsecond seconds_of_day].
  unfold seconds_of_day at 1. cbn [hour minute second]. rewrite H. lia.
Qed.

(** With a clock that shows real dates short of 9999-12-31, the wait for
    the next day ends the iteration with the sleep until 08:00. *)
Lemma next_day_wait_0800 (E : Env) (k : nat) (p : phase) (r : result phase)
  (evs : list event) :
  valid (clock E k) -> toordinal (clock E k) < MAXORDINAL ->
  next_day_wait E k p r evs ->
  r = Ok p /\ evs = [EvSleep (Z.max 0 (until_next_0800 (clock E k) (clock E (S k))))].
Proof.
  intros Hv Hm. unfold next_day_wait.
  destruct (add_days_defined _ Hv Hm) as [t' Ht]. rewrite Ht.
  intros [-> ->]. split; [reflexivity|].
  rewrite (sub_us_next_0800 (clock E k) _ t'); [reflexivity|].
  now apply toordinal_add_days.
Qed.

Lemma lt_same_day (t : datetime) (h m : Z) :
  valid t -> 0 <= m < 60 ->
  lt t (replace_hm t h m) = (us_of_day t <? (h * 3600 + m * 60) * 1000000).
Proof.
  intros (_ & _ & _ & Hh & Hm & Hs & Hu) Hm'.
  unfold lt, lex, replace_hm, us_of_day, seconds_of_day.
  cbn [year month day hour minute second microsecond].
  rewrite !Z.ltb_irrefl, !Z.eqb_refl. cbn [orb andb].
  destruct (Z.ltb_spec (hour t) h), (Z.eqb_spec (hour t) h),
    (Z.ltb_spec (minute t) m), (Z.eqb_spec (minute t) m),
    (Z.ltb_spec (second t) 0), (Z.eqb_spec (second t) 0),
    (Z.ltb_spec (microsecond t) 0),
    (Z.ltb_spec ((hour t * 3600 + minute t * 60 + second t) * 1000000 + microsecond t)
       ((h * 3600 + m * 60) * 1000000));
    cbn [orb andb]; try reflexivity; exfalso; lia.
Qed.

Lemma sub_us_same_day (t : datetime) (h m : Z) :
  sub_us (replace_hm t h m) t = us_until t h m.
Proof.
  unfold sub_us, us_until, us_of_day, replace_hm, toordinal, seconds_of_day.
  cbn [year month day hour minute second microsecond]. lia.
Qed.

Lemma wait_outside_init (t : datetime) :
  valid t -> wait_outside init t = outside_wait t.
Proof.
  intros Hv. unfold wait_outside, outside_wait.
  cbn [init trading_hours morning afternoon fst snd].
  rewrite !lt_same_day, !sub_us_same_day by (assumption || lia). reflexivity.
Qed.

(** ** The scheduler loop *)

Lemma listing_length (items : list stock_item) :
  (1 <= List.length (listing items) <= 5)%nat.
Proof.
  unfold listing.
  pose proof (firstn_le_length 5 items) as H.
  assert (H5 : (List.length (firstn 5 items) <= 5)%nat).
  { rewrite length_firstn. lia. }
  rewrite <- (length_map format_stock) in H5.
  destruct (map format_stock (firstn 5 items)); cbn [is_nil List.length] in *; lia.
Qed.

Lemma listing_nonempty (items : list stock_item) :
  items <> [] -> listing items = map format_stock (firstn 5 items).
Proof. destruct items; [contradiction | reflexivity]. Qed.

Lemma listing_count (items : list stock_item) :
  List.length (listing items) = Nat.max 1 (Nat.min 5 (List.length items)).
Proof.
  pose proof (length_map format_stock (firstn 5 items)) as Hl.
  rewrite length_firstn in Hl. unfold listing.
  destruct items as [|a items]; [reflexivity|].
  change (firstn 5 (a :: items)) with (a :: firstn 4 items) in *.
  cbn [map is_nil List.length] in *. lia.
Qed.

Lemma numbered_length (i : nat) (stocks : list string) :
  List.length (numbered i stocks) = List.length stocks.
Proof.
  revert i. induction stocks as [|s l IH]; intros i; cbn [numbered List.length];
    [reflexivity | now rewrite IH].
Qed.

Lemma numbered_nth (i k : nat) (stocks : list string) (s : string) :
  nth_error stocks k = Some s ->
  nth_error (numbered i stocks) k = Some (str_of_nat (i + k + 1) +++ ". " +++ s).
Proof.
  revert i k. induction stocks as [|x l IH]; intros i k H.
  - destruct k; discriminate.
  - destruct k as [|k]; cbn [nth_error numbered] in *.
    + injection H as ->. now rewrite Nat.add_0_r.
    + rewrite (IH (S i) k H). do 3 f_equal. lia.
Qed.

(** C10. A successful fetch returns between one and five entries, the
    first five elements of the page (or the placeholder).  The content an
    iteration hands to the notifier is the numbered list of exactly those
    entries of the page it fetched, one line each and so at most five
    lines, the line at position [i] being entry [i] behind the number
    [i + 1]; the message posted carries that content; and the notifier is
    called with one content only.  With the gates open and a page fetched,
    the notifier is called with that list. *)
Theorem at_most_five_listings (E : Env) (self : NewStockPusher) (w : World) :
  (forall stocks w', crawl_new_stocks E w = (Ok (Some stocks), w') ->
     (1 <= List.length stocks <= 5)%nat /\
     exists items, http_get E (gets w) = Some items /\ stocks = listing items /\
       (items <> [] -> stocks = map format_stock (firstn 5 items))) /\
  (forall r w' evs,
     run_cycle E self w = (r, w') -> trace w' = (trace w ++ evs)%list ->
     (forall content, In (EvNotify content) evs ->
        exists items, http_get E (gets w) = Some items /\
          let lines := numbered 0 (listing items) in
          content = join (String newline EmptyString) lines /\
          (1 <= List.length lines <= 5)%nat /\
          List.length lines = Nat.max 1 (Nat.min 5 (List.length items)) /\
          (forall i s, nth_error (listing items) i = Some s ->
             nth_error lines i = Some (str_of_nat (i + 1) +++ ". " +++ s)) /\
          (forall text, In (EvPost text) evs ->
             exists k, text = message_text content (clock E k))) /\
     (forall a b, In (EvNotify a) evs -> In (EvNotify b) evs -> a = b) /\
     (forall text, In (EvPost text) evs -> exists content, In (EvNotify content) evs) /\
     (calendar_passes E w ->
      (forall k, ~ ledger_says E (status_file w) (strftime_date (clock E k))) ->
      (forall k, in_hours_at E self k = Ok true) ->
      forall items, http_get E (gets w) = Some items ->
        In (EvNotify (content_of (listing items))) evs)).
Proof.
  split.
  - intros stocks w'. rewrite crawl_new_stocks_run.
    destruct (http_get E (gets w)) as [items|]; [|discriminate].
    cbn [option_map]. intros H. injection H as <- _.
    split; [apply listing_length|]. exists items.
    auto using listing_nonempty.
  - intros r w' evs H Ht.
    apply run_cycle_paths in H as (evs' & Ht' & Hc).
    rewrite Ht' in Ht. apply app_inv_head in Ht. subst evs'.
    assert (Hn : forall items content (l : list event),
               content = content_of (listing items) ->
               http_get E (gets w) = Some items ->
               (forall text, In (EvPost text) l ->
                  exists k, text = message_text content (clock E k)) ->
               exists items, http_get E (gets w) = Some items /\
                 let lines := numbered 0 (listing items) in
                 content = join (String newline EmptyString) lines /\
                 (1 <= List.length lines <= 5)%nat /\
                 List.length lines = Nat.max 1 (Nat.min 5 (List.length items)) /\
                 (forall i s, nth_error (listing items) i = Some s ->
                    nth_error lines i = Some (str_of_nat (i + 1) +++ ". " +++ s)) /\
                 (forall text, In (EvPost text) l ->
                    exists k, text = message_text content (clock E k))).
    { intros items content l -> Hg Hp. exists items. split; [exact Hg|]. cbv zeta.
      rewrite numbered_length. split; [reflexivity|].
      split; [apply listing_length|]. split; [apply listing_count|].
      split; [intros i s Hi; exact (numbered_nth 0 i _ s Hi) | exact Hp]. }
    split; [|split; [|split]].
    + intros content Hin.
      cycle_cases Hc; in_cases Hin; injection Hin as <-;
        (eapply Hn; [reflexivity | eassumption |]);
        intros text' Hin'; in_cases Hin'; injection Hin' as <-; eexists; reflexivity.
    + intros a b Ha Hb.
      cycle_cases Hc; in_cases Ha; in_cases Hb; congruence.
    + intros text' Hin.
      cycle_cases Hc; in_cases Hin; eexists; cbn [In app]; auto.
    + intros Hp Hl Hh items Hg.
      cycle_cases Hc; gates_open Hp Hl Hh; try congruence;
        match goal with
        | H : http_get E (gets w) = Some _ |- _ => rewrite Hg in H; injection H as <-
        end; cbn [In app]; auto.
Qed.

(** C6. In an iteration the ledger is written only after the notifier
    succeeded.  A failed fetch leaves [crawl, sleep 30 min] and the ledger
    as it was, with nothing sent; a failed delivery ends in a sleep of 30
    minutes with no write and the ledger as it was.  A write comes directly
    behind a webhook request that was accepted, and there is at most one;
    without an accepted request nothing is written and the ledger is as it
    was.  After an accepted request [update_push_status] is called at once:
    the record is stored, or the file cannot be opened and [OSError] escapes
    with the ledger as it was, or the write is cut short and [OSError]
    escapes.  The same read from what the iteration meets once the gates
    are open: no page, no webhook or a refusal, an acceptance. *)
Theorem ledger_written_only_after_send (E : Env) (self : NewStockPusher) (w : World)
  (r : result phase) (w' : World) (evs : list event) :
  run_cycle E self w = (r, w') -> trace w' = (trace w ++ evs)%list ->
  (In EvCrawl evs -> http_get E (gets w) = None ->
     r = Ok FetchFailed /\ evs = [EvCrawl; EvSleep (30 * 60 * second_us)] /\
     status_file w' = status_file w) /\
  (forall content, In (EvNotify content) evs -> ~ delivered E (posts w) evs ->
     r = Ok NotifyFailed /\
     (exists pre, evs = (pre ++ [EvSleep (30 * 60 * second_us)])%list) /\
     count_writes evs = 0%nat /\ status_file w' = status_file w) /\
  (forall record, In (EvWrite record) evs ->
     exists content text rest,
       evs = ([EvCrawl; EvNotify content; EvPost text; EvWrite record] ++ rest)%list /\
       accepted E (posts w) text /\ count_writes rest = 0%nat /\
       status_file w' = Contents record) /\
  (count_writes evs <= 1)%nat /\
  (~ delivered E (posts w) evs ->
     count_writes evs = 0%nat /\ status_file w' = status_file w) /\
  (delivered E (posts w) evs ->
     exists content text k,
       (ticks w <= k)%nat /\ accepted E (posts w) text /\
       let record := ledger_text (clock E (S k)) (clock E (S (S k))) in
       match fs_write E (S k) with
       | Written =>
           exists rest,
             evs = ([EvCrawl; EvNotify content; EvPost text; EvWrite record]
                    ++ rest)%list /\
             count_writes rest = 0%nat /\ status_file w' = Contents record
       | OpenRaises =>
           r = Raise OSError /\ evs = [EvCrawl; EvNotify content; EvPost text] /\
           status_file w' = status_file w
       | WriteRaises rest =>
           r = Raise OSError /\ evs = [EvCrawl; EvNotify content; EvPost text] /\
           status_file w' = Contents rest
       end) /\
  (calendar_passes E w ->
   (forall k, ~ ledger_says E (status_file w) (strftime_date (clock E k))) ->
   (forall k, in_hours_at E self k = Ok true) ->
   (http_get E (gets w) = None ->
      r = Ok FetchFailed /\ evs = [EvCrawl; EvSleep (30 * 60 * second_us)] /\
      status_file w' = status_file w) /\
   (forall items, http_get E (gets w) = Some items ->
      WECHAT_WEBHOOK E = EmptyString \/ (forall text, ~ accepted E (posts w) text) ->
      r = Ok NotifyFailed /\ status_file w' = status_file w /\
      exists mid,
        evs = ([EvCrawl; EvNotify (content_of (listing items))] ++ mid
               ++ [EvSleep (30 * 60 * second_us)])%list /\
        (mid = [] \/ exists text, mid = [EvPost text])) /\
   (forall items, http_get E (gets w) = Some items ->
      WECHAT_WEBHOOK E <> EmptyString -> (forall text, accepted E (posts w) text) ->
      delivered E (posts w) evs)).
Proof.
  intros H Ht.
  apply run_cycle_paths in H as (evs' & Ht' & Hc).
  rewrite Ht' in Ht. apply app_inv_head in Ht. subst evs'.
  split; [|split; [|split; [|split; [|split; [|split]]]]].
  - intros Hin Hg. cycle_cases Hc; in_cases Hin; try congruence; auto.
  - intros content Hin Hn.
    cycle_cases Hc; in_cases Hin;
      try (exfalso; apply Hn; eexists; split; [cbn [In app]; eauto 6 | eassumption]).
    + repeat split; try congruence.
      now exists [EvCrawl; EvNotify (content_of (listing items))].
    + repeat split; try congruence.
      now exists [EvCrawl; EvNotify (content_of (listing items)); EvPost text].
  - intros rec Hin.
    cycle_cases Hc; in_cases Hin; injection Hin as <-;
      do 3 eexists; (split; [reflexivity|]); auto.
  - cycle_cases Hc; cbn; lia.
  - intros Hn.
    cycle_cases Hc; try (split; [reflexivity | congruence]);
      exfalso; apply Hn; eexists; (split; [cbn [In app]; eauto 6 | eassumption]).
  - intros (text' & Hin & Hacc).
    cycle_cases Hc; in_cases Hin; try (injection Hin as <-; contradiction);
      exists (content_of (listing items)), text, k;
      (split; [assumption|]); (split; [assumption|]); cbv zeta;
      match goal with H : fs_write E (S _) = _ |- _ => rewrite H end;
      try (eexists; split; [reflexivity|]); auto.
  - intros Hp Hl Hh. split; [|split].
    + intros Hg. cycle_cases Hc; gates_open Hp Hl Hh; try congruence; auto.
    + intros items' Hg Hno.
      cycle_cases Hc; gates_open Hp Hl Hh; try congruence;
        match goal with
        | H : http_get E (gets w) = Some _ |- _ => rewrite Hg in H; injection H as <-
        end;
        try (exfalso; destruct Hno as [Hno|Hno];
             [congruence | eapply Hno; eassumption]).
      * repeat split; try congruence. exists []. auto.
      * repeat split; try congruence. exists [EvPost text]. eauto.
    + intros items' Hg Hw Ha.
      cycle_cases Hc; gates_open Hp Hl Hh; try congruence;
        try (exfalso; match goal with H : ~ accepted _ _ _ |- _ => apply H, Ha end);
        eexists; (split; [cbn [In app]; eauto 6 | eassumption]).
Qed.

(** C8. An iteration that ends in OutsideTradingHours passed the calendar
    check, found no push recorded and found the clock outside the trading
    hours; it then reads the clock once more and sleeps for the time left
    until 09:30 of that day if that is still ahead, else until 13:00 if that
    is still ahead, else for 3600 seconds, and never for a negative time. *)
Theorem outside_hours_wait (E : Env) (w : World) (w' : World) :
  (forall k, valid (clock E k)) ->
  run_cycle E init w = (Ok OutsideTradingHours, w') ->
  exists k, (ticks w <= k)%nat /\
    calendar_passes E w /\ not_pushed E w /\ in_hours_at E init k = Ok false /\
    let now := clock E (S k) in
    trace w' = (trace w ++ [EvSleep (Z.max 0 (outside_wait now))])%list /\
    0 <= Z.max 0 (outside_wait now) /\
    status_file w' = status_file w.
Proof.
  intros Hv H.
  apply run_cycle_paths in H as (evs & Ht & Hc).
  inversion Hc; subst; clear Hc;
    try match goal with
      | H : next_day_wait _ _ _ _ _ |- _ =>
          unfold next_day_wait in H; destruct (add_days _ _) in H;
          destruct H as [? ?]; discriminate
      end.
  exists k. rewrite wait_outside_init in Ht by apply Hv.
  repeat split; try assumption; try lia; try congruence.
Qed.

Lemma content_of_placeholder :
  content_of (listing []) = "1. " +++ no_stock_info.
Proof. reflexivity. Qed.

(** C9. A page without listings makes [crawl_new_stocks] return the
    one-element placeholder list, which is not the failure result and is
    not empty.  An iteration that gets as far as the fetch (the calendar
    check passes, no push is recorded, the clock is inside the trading
    hours) and finds such a page calls the notifier with the numbered
    placeholder and does not end in FetchFailed; when a webhook is set and
    accepts the message and the ledger can be written, the ledger is
    written and the iteration ends in Pushed with the sleep until 08:00 of
    the next day. *)
Theorem no_listings_completes_the_check (E : Env) (w : World)
  (r : result phase) (w' : World) (evs : list event) :
  http_get E (gets w) = Some [] ->
  (exists w1, crawl_new_stocks E w = (Ok (Some [no_stock_info]), w1)) /\
  no_stock_info <> EmptyString /\
  (calendar_passes E w ->
   (forall k, ~ ledger_says E (status_file w) (strftime_date (clock E k))) ->
   (forall k, in_hours_at E init k = Ok true) ->
   run_cycle E init w = (r, w') -> trace w' = (trace w ++ evs)%list ->
   let content := "1. " +++ no_stock_info in
   (exists rest, evs = EvCrawl :: EvNotify content :: rest) /\
   r <> Ok FetchFailed /\
   (WECHAT_WEBHOOK E <> EmptyString -> (forall text, accepted E (posts w) text) ->
    real_clock E -> (forall k, fs_write E k = Written) ->
    r = Ok Pushed /\
    exists k, (ticks w <= k)%nat /\
      let record := ledger_text (clock E (S k)) (clock E (S (S k))) in
      status_file w' = Contents record /\
      evs = [EvCrawl; EvNotify content; EvPost (message_text content (clock E k));
             EvWrite record;
             EvSleep (Z.max 0 (until_next_0800 (clock E (S (S (S k))))
                                 (clock E (S (S (S (S k)))))))])).
Proof.
  intros Hget. split; [|split].
  - rewrite crawl_new_stocks_run, Hget. eexists. reflexivity.
  - discriminate.
  - intros Hp Hl Hh H Ht content.
    apply run_cycle_paths in H as (evs' & Ht' & Hc).
    rewrite Ht' in Ht. apply app_inv_head in Ht. subst evs'.
    inversion Hc; subst; clear Hc; gates_open Hp Hl Hh; try congruence;
      repeat match goal with x := _ |- _ => subst x end;
      match goal with
      | H : http_get _ _ = Some ?i |- _ => is_var i; rewrite Hget in H; injection H as <-
      end;
      rewrite content_of_placeholder in *;
      (split; [eexists; reflexivity|]);
      (split; [try discriminate|]);
      try (intros Hw Ha Hc Hd; exfalso;
           first [ contradiction
                 | match goal with H : ~ accepted _ _ _ |- _ => apply H, Ha end
                 | match goal with H : fs_write _ _ = _ |- _ =>
                     rewrite Hd in H; discriminate H end ]).
    + intros ->.
      match goal with H : next_day_wait _ _ _ _ _ |- _ =>
        unfold next_day_wait in H; destruct (add_days _ _) in H;
        destruct H as [? _]; discriminate end.
    + intros Hw Ha Hc Hd.
      match goal with H : next_day_wait _ _ _ _ _ |- _ =>
        apply next_day_wait_0800 in H as [-> ->]; try apply Hc end.
      split; [reflexivity|]. exists k. split; [assumption|]. split; reflexivity.
Qed.

(** ** Notification ledger: writing and reading back *)

Lemma ledger_says_ledger_text (E : Env) (d t : datetime) (date : string) :
  eval_reads_displays E ->
  ledger_says E (Contents (ledger_text d t)) date <-> date = strftime_date d.
Proof.
  intros He. destruct (strip_ledger_text d t) as [Hs Hn].
  pose proof (He _ _ (eval_display_ledger_text d t)) as Hv.
  unfold ledger_says. split.
  - intros (text & status & Hc & _ & Hp & Hd). injection Hc as <-.
    rewrite Hs, Hv in Hp. injection Hp as <-.
    change (VStr (strftime_date d) = VStr date) in Hd. congruence.
  - intros ->. exists (ledger_text d t). eexists.
    rewrite Hs. split; [reflexivity|]. split; [assumption|]. split; [exact Hv | reflexivity].
Qed.

(** C5. When the ledger file can be written, [update_push_status] writes
    it, and once it has, a later [has_pushed_today], in this process or in
    another one that finds the same file, answers true at any time of the
    date written and false at any time of another date. *)
Theorem ledger_round_trip (E E' : Env) (w w1 w2 : World) (r : result unit) :
  eval_reads_displays E' ->
  valid (clock E (ticks w)) -> valid (clock E' (ticks w2)) ->
  fs_write E (ticks w) = Written ->
  update_push_status E w = (r, w1) ->
  status_file w2 = status_file w1 ->
  let written := clock E (ticks w) in
  let later := clock E' (ticks w2) in
  r = Ok tt /\
  status_file w1 = Contents (ledger_text written (clock E (S (ticks w)))) /\
  (same_date later written -> fst (has_pushed_today E' w2) = Ok true) /\
  (~ same_date later written -> fst (has_pushed_today E' w2) = Ok false).
Proof.
  intros He Hv Hv' Hd Hu Hf written later.
  rewrite update_push_status_run, Hd in Hu. injection Hu as <- <-.
  cbn [status_file] in Hf. split; [reflexivity|]. split; [reflexivity|].
  pose proof (has_pushed_today_true E' w2) as Ht.
  rewrite Hf, ledger_says_ledger_text in Ht by assumption.
  split.
  - intros Hs. apply Ht. now apply same_date_strftime.
  - intros Hs. destruct (has_pushed_today_total E' w2) as [[|] Hb]; [|assumption].
    exfalso. apply Hs. apply strftime_date_inj; try assumption.
    apply Ht. assumption.
Qed.

(** ** At most one push per date *)

Lemma count_writes_app (a b : list event) :
  count_writes (a ++ b) = (count_writes a + count_writes b)%nat.
Proof. unfold count_writes. now rewrite filter_app, length_app. Qed.

Lemma quiet_no_writes (evs : list event) :
  forallb quiet evs = true -> count_writes evs = 0%nat.
Proof.
  induction evs as [|e evs IH]; [reflexivity|].
  cbn [forallb]. rewrite andb_true_iff. intros [He Hr].
  unfold count_writes in *. cbn [filter].
  unfold quiet in He. apply andb_true_iff in He as [He _].
  apply negb_true_iff in He. rewrite He. auto.
Qed.

Lemma after_first_write_skip (a b : list event) :
  count_writes a = 0%nat -> after_first_write (a ++ b) = after_first_write b.
Proof.
  induction a as [|e a IH]; [reflexivity|].
  unfold count_writes in *. cbn [filter app].
  destruct e; cbn [is_write List.length after_first_write]; auto; discriminate.
Qed.

Lemma after_first_write_keep (a b : list event) :
  count_writes a <> 0%nat -> after_first_write (a ++ b) = (after_first_write a ++ b)%list.
Proof.
  induction a as [|e a IH]; [intros H; now contradiction H|].
  unfold count_writes in *. cbn [filter app].
  destruct e; cbn [is_write List.length after_first_write]; auto.
Qed.

(** What one iteration does to the ledger when the clock stays on one
    date. *)
Lemma cycle_once (E : Env) (today : datetime) (w : World) (r : result phase)
  (w' : World) :
  eval_reads_displays E -> one_date E today ->
  run_cycle E init w = (r, w') ->
  exists evs, trace w' = (trace w ++ evs)%list /\
    (ledger_says E (status_file w) (strftime_date today) ->
     forallb quiet evs = true /\ status_file w' = status_file w) /\
    ((count_writes evs = 0%nat /\ status_file w' = status_file w) \/
     (count_writes evs = 0%nat /\ r = Raise OSError) \/
     (count_writes evs = 1%nat /\ forallb quiet (after_first_write evs) = true /\
      ledger_says E (status_file w') (strftime_date today))).
Proof.
  intros He Hd H.
  assert (Hs : forall k, strftime_date (clock E k) = strftime_date today)
    by (intros k; apply same_date_strftime, Hd).
  apply run_cycle_paths in H as (evs & Ht & Hc). exists evs. split; [exact Ht|].
  assert (Hn : not_pushed E w -> ~ ledger_says E (status_file w) (strftime_date today)).
  { intros (j & _ & Hj). now rewrite Hs in Hj. }
  cycle_cases Hc;
    try (split; [intros Hl; try (exfalso; apply Hn; assumption); split; reflexivity
                | left; split; reflexivity]).
  - split; [intros Hl; exfalso; apply Hn; assumption|].
    right. right. split; [reflexivity|]. split; [reflexivity|].
    apply ledger_says_ledger_text; [assumption|]. symmetry. apply Hs.
  - split; [intros Hl; exfalso; apply Hn; assumption|].
    right. right. split; [reflexivity|]. split; [reflexivity|].
    apply ledger_says_ledger_text; [assumption|]. symmetry. apply Hs.
  - split; [intros Hl; exfalso; apply Hn; assumption|].
    right. left. split; reflexivity.
Qed.

Lemma run_once_per_date (E : Env) (today : datetime) (n : nat) :
  eval_reads_displays E -> one_date E today ->
  forall w r w', run E init n w = (r, w') ->
  exists evs, trace w' = (trace w ++ evs)%list /\
    (ledger_says E (status_file w) (strftime_date today) ->
     forallb quiet evs = true /\ status_file w' = status_file w) /\
    ((count_writes evs = 0%nat /\ status_file w' = status_file w) \/
     (count_writes evs = 0%nat /\ r = Raise OSError) \/
     (count_writes evs = 1%nat /\ forallb quiet (after_first_write evs) = true /\
      ledger_says E (status_file w') (strftime_date today))).
Proof.
  intros He Hd. induction n as [|n IH]; intros w r w' H.
  - injection H as <- <-. exists []. rewrite app_nil_r. auto.
  - cbn [run] in H. unfold bind at 1 in H.
    destruct (run_cycle E init w) as [r1 w1] eqn:H1.
    apply (cycle_once E today) in H1 as (evs1 & T1 & A1 & B1); try assumption.
    destruct r1 as [p|e].
    2: { injection H as <- <-. exists evs1. split; [exact T1|]. split; [exact A1|].
         destruct B1 as [B1|[[C1 R1]|B1]]; auto.
         right. left. split; [exact C1|]. congruence. }
    unfold bind, ret in H.
    destruct (run E init n w1) as [r2 w2] eqn:H2.
    apply IH in H2 as (evs2 & T2 & A2 & B2).
    assert (Hw : w' = w2) by (destruct r2; now injection H).
    assert (Hr : r2 = Raise OSError -> r = Raise OSError)
      by (intros ->; now injection H).
    subst w'. clear H.
    exists (evs1 ++ evs2)%list.
    split; [rewrite T2, T1, app_assoc; reflexivity|]. split.
    + intros Hl. destruct (A1 Hl) as [Q1 F1]. rewrite <- F1 in Hl.
      destruct (A2 Hl) as [Q2 F2]. rewrite forallb_app, Q1, Q2. split; [reflexivity | congruence].
    + rewrite count_writes_app.
      destruct B1 as [[C1 F1]|[[C1 R1]|(C1 & Q1 & L1)]]; [| discriminate R1 |].
      * rewrite after_first_write_skip by assumption. rewrite C1, F1 in *.
        destruct B2 as [B2|[[C2 R2]|B2]]; auto.
      * destruct (A2 L1) as [Q2 F2]. right. right.
        rewrite (quiet_no_writes evs2 Q2), C1.
        rewrite after_first_write_keep by lia.
        rewrite forallb_app, Q1, Q2, F2. auto.
Qed.

Lemma no_writes_nothing_after (evs : list event) :
  count_writes evs = 0%nat -> after_first_write evs = [].
Proof.
  intros H. rewrite <- (app_nil_r evs). now rewrite after_first_write_skip.
Qed.

Lemma toordinal_same_date (a b : datetime) : same_date a b -> toordinal a = toordinal b.
Proof. intros (Hy & Hm & Hd). unfold toordinal. now rewrite Hy, Hm, Hd. Qed.

(** While the clock stays on one date the calendar check has one answer. *)
Lemma calendar_passes_one_date (E : Env) (today : datetime) (w w' : World) :
  one_date E today -> calendar_passes E w -> calendar_passes E w'.
Proof.
  intros Hd [Hp|Hp]; [now left | right].
  unfold weekday in *.
  rewrite (toordinal_same_date _ _ (Hd (S (ticks w')))).
  now rewrite <- (toordinal_same_date _ _ (Hd (S (ticks w)))).
Qed.

(** An iteration that finds today's date in the ledger, on a day the
    calendar check lets through. *)
Lemma already_pushed_cycle (E : Env) (today : datetime) (w : World)
  (r : result phase) (w' : World) :
  real_clock E -> one_date E today ->
  ledger_says E (status_file w) (strftime_date today) -> calendar_passes E w ->
  run_cycle E init w = (r, w') ->
  r = Ok AlreadyPushedToday /\ status_file w' = status_file w /\
  exists k, (ticks w <= k)%nat /\
    trace w' = (trace w ++
      [EvSleep (Z.max 0 (until_next_0800 (clock E k) (clock E (S k))))])%list.
Proof.
  intros Hc Hd Hl Hp H.
  assert (Hs : forall k, strftime_date (clock E k) = strftime_date today)
    by (intros k; apply same_date_strftime, Hd).
  assert (Hn : ~ not_pushed E w).
  { intros (j & _ & Hj). now rewrite Hs in Hj. }
  apply run_cycle_paths in H as (evs & Ht & Hy).
  inversion Hy; subst; clear Hy; try contradiction.
  - exfalso. destruct Hp as [Hp|Hp]; [congruence | lia].
  - match goal with H : next_day_wait _ _ _ _ _ |- _ =>
      apply next_day_wait_0800 in H as [-> ->]; try apply Hc end.
    split; [reflexivity|]. split; [congruence|].
    exists (S k). split; [lia | assumption].
Qed.

Lemma already_pushed_run (E : Env) (today : datetime) (n : nat) :
  real_clock E -> one_date E today ->
  forall w r w',
    ledger_says E (status_file w) (strftime_date today) -> calendar_passes E w ->
    run E init n w = (r, w') ->
    r = Ok (repeat AlreadyPushedToday n) /\ status_file w' = status_file w /\
    exists evs, trace w' = (trace w ++ evs)%list /\ List.length evs = n /\
      Forall (sleeps_until_next_0800 E) evs.
Proof.
  intros Hc Hd. induction n as [|n IH]; intros w r w' Hl Hp H.
  - injection H as <- <-. split; [reflexivity|]. split; [reflexivity|].
    exists []. rewrite app_nil_r. auto.
  - cbn [run] in H. unfold bind at 1 in H.
    destruct (run_cycle E init w) as [r1 w1] eqn:H1.
    apply (already_pushed_cycle E today) in H1 as (-> & F1 & k & _ & T1);
      try assumption.
    unfold bind, ret in H.
    destruct (run E init n w1) as [r2 w2] eqn:H2.
    apply IH in H2 as (-> & F2 & evs & T2 & L2 & S2);
      [| now rewrite F1 | exact (calendar_passes_one_date E today w w1 Hd Hp)].
    injection H as <- <-.
    split; [reflexivity|]. split; [congruence|].
    eexists (_ :: evs). split; [rewrite T2, T1, <- app_assoc; reflexivity|].
    split; [cbn; now rewrite L2|].
    constructor; [now exists k | exact S2].
Qed.

(** C1. While the clock stays on one date, over any number of iterations
    the ledger is written at most once, nothing is fetched or sent after
    that write, and the write leaves the ledger on that date; a loop that
    starts with that date in the ledger sends and writes nothing.  Once an
    iteration has pushed, the ledger holds the date, and every iteration
    that follows ends in AlreadyPushedToday, its one event the sleep until
    08:00 of the next day, with nothing fetched, sent or written.  The same
    holds of any iteration that finds the date in the ledger on a day the
    calendar check lets through. *)
Theorem one_push_per_date (E : Env) (today : datetime) :
  eval_reads_displays E -> real_clock E -> one_date E today ->
  (forall n w r w',
     run E init n w = (r, w') ->
     exists evs, trace w' = (trace w ++ evs)%list /\
       (count_writes evs <= 1)%nat /\
       forallb quiet (after_first_write evs) = true /\
       (count_writes evs = 1%nat ->
        ledger_says E (status_file w') (strftime_date today)) /\
       (ledger_says E (status_file w) (strftime_date today) ->
        forallb quiet evs = true /\ status_file w' = status_file w)) /\
  (forall w w1,
     run_cycle E init w = (Ok Pushed, w1) ->
     ledger_says E (status_file w1) (strftime_date today) /\
     forall n r w',
       run E init n w1 = (r, w') ->
       r = Ok (repeat AlreadyPushedToday n) /\ status_file w' = status_file w1 /\
       exists evs, trace w' = (trace w1 ++ evs)%list /\ List.length evs = n /\
         Forall (sleeps_until_next_0800 E) evs /\ forallb quiet evs = true) /\
  (forall w r w',
     ledger_says E (status_file w) (strftime_date today) -> calendar_passes E w ->
     run_cycle E init w = (r, w') ->
     r = Ok AlreadyPushedToday /\ status_file w' = status_file w /\
     exists k, (ticks w <= k)%nat /\
       trace w' = (trace w ++
         [EvSleep (Z.max 0 (until_next_0800 (clock E k) (clock E (S k))))])%list).
Proof.
  intros He Hc Hd. split; [|split].
  - intros n w r w' H.
    apply (run_once_per_date E today n He Hd) in H as (evs & Ht & A & B).
    exists evs. split; [assumption|].
    destruct B as [[C F]|[[C R]|(C & Q & L)]].
    + rewrite C, (no_writes_nothing_after evs C).
      repeat split; try lia; try apply A; try assumption; try discriminate.
    + rewrite C, (no_writes_nothing_after evs C).
      repeat split; try lia; try apply A; try assumption; try discriminate.
    + rewrite C. repeat split; try lia; try apply A; try assumption; auto.
  - intros w w1 H.
    assert (Hs : forall k, strftime_date (clock E k) = strftime_date today)
      by (intros k; apply same_date_strftime, Hd).
    apply run_cycle_paths in H as (evs & Ht & Hy).
    assert (Hl : ledger_says E (status_file w1) (strftime_date today) /\
                 calendar_passes E w).
    { inversion Hy; subst; clear Hy;
        try match goal with
          | H : next_day_wait _ _ _ _ _ |- _ =>
              unfold next_day_wait in H; destruct (add_days _ _) in H;
              destruct H as [? ?]; try discriminate
          end.
      split; [|assumption].
      apply ledger_says_ledger_text; [assumption|]. symmetry. apply Hs. }
    destruct Hl as [Hl Hp]. split; [exact Hl|].
    intros n r w' Hr.
    apply (already_pushed_run E today n Hc Hd) in Hr as (-> & F & evs' & T & L & S);
      [| exact Hl | exact (calendar_passes_one_date E today w w1 Hd Hp)].
    split; [reflexivity|]. split; [exact F|].
    exists evs'. repeat split; try assumption.
    clear -S. induction S as [|e l [k ->] _ IH]; [reflexivity | exact IH].
  - intros w r w' Hl Hp H.
    exact (already_pushed_cycle E today w r w' Hc Hd Hl Hp H).
Qed.

(** ** The properties at sample inputs *)

Lemma env_with_reads_displays (t0 : datetime) (test : bool)
  (page : option (list stock_item)) (reply : post_result) :
  eval_reads_displays (env_with t0 test page reply).
Proof.
  intros s d H. cbn [py_eval env_with]. unfold eval_literal. now rewrite H.
Qed.

Lemma friday_clock_real (h m : Z) (test : bool) (page : option (list stock_item))
  (reply : post_result) :
  0 <= h < 24 -> 0 <= m < 60 -> real_clock (env_with (friday h m) test page reply).
Proof.
  intros Hh Hm k. cbn [clock env_with friday year month day hour minute second microsecond].
  split.
  - unfold valid. cbn [year month day hour minute second microsecond].
    change (days_in_month 2024 1) with 31. lia.
  - vm_compute. reflexivity.
Qed.

Lemma friday_clock_one_date (h m : Z) (test : bool) (page : option (list stock_item))
  (reply : post_result) :
  one_date (env_with (friday h m) test page reply) (friday h m).
Proof. intros k. repeat split. Qed.

Lemma one_push_per_date_witness :
  let E := env_at (friday 10 0) in
  let w1 := snd (run_cycle E init (fresh Absent)) in
  (exists evs,
     trace (snd (run E init 3 (fresh Absent))) = evs /\
     (count_writes evs <= 1)%nat /\ forallb quiet (after_first_write evs) = true) /\
  fst (run_cycle E init (fresh Absent)) = Ok Pushed /\
  fst (run E init 2 w1) = Ok [AlreadyPushedToday; AlreadyPushedToday].
Proof.
  cbv zeta.
  destruct (one_push_per_date (env_at (friday 10 0)) (friday 10 0)) as (H1 & H2 & _).
  - apply env_with_reads_displays.
  - apply friday_clock_real; lia.
  - apply friday_clock_one_date.
  - split; [|split].
    + destruct (H1 3%nat (fresh Absent) _ _ (surjective_pairing _))
        as (evs & Ht & Hc & Hq & _).
      exists evs. cbn [trace fresh app] in Ht. auto.
    + vm_compute. reflexivity.
    + destruct (H2 (fresh Absent)
                  (snd (run_cycle (env_at (friday 10 0)) init (fresh Absent))))
        as [_ Hn]; [vm_compute; reflexivity|].
      destruct (Hn 2%nat _ _ (surjective_pairing _)) as (Hr & _). exact Hr.
Defined.

Lemma ledger_round_trip_witness :
  let w1 := snd (update_push_status (env_at (friday 10 0)) (fresh Absent)) in
  fst (has_pushed_today (env_at (friday 14 30)) (fresh (status_file w1))) = Ok true /\
  fst (has_pushed_today (env_at (saturday 10 0)) (fresh (status_file w1))) = Ok false.
Proof.
  cbv zeta.
  set (E := env_at (friday 10 0)).
  set (w1 := snd (update_push_status E (fresh Absent))).
  assert (Hv : valid (clock E (ticks (fresh Absent))))
    by (apply (friday_clock_real 10 0); lia).
  assert (Hu : update_push_status E (fresh Absent) = (Ok tt, w1)) by reflexivity.
  split.
  - apply (ledger_round_trip E (env_at (friday 14 30)) (fresh Absent) w1
             (fresh (status_file w1)) (Ok tt)); try assumption; try reflexivity;
      try apply env_with_reads_displays; try (repeat split; fail).
    apply (friday_clock_real 14 30); lia.
  - apply (ledger_round_trip E (env_at (saturday 10 0)) (fresh Absent) w1
             (fresh (status_file w1)) (Ok tt)); try assumption; try reflexivity;
      try apply env_with_reads_displays;
      first [ intros (_ & _ & H); vm_compute in H; discriminate
            | unfold valid; vm_compute; intuition discriminate ].
Defined.

Lemma ledger_written_only_after_send_witness :
  let E := env_with (friday 10 0) false (Some seven_items) PostRaises in
  let w' := snd (run_cycle E init (fresh Absent)) in
  let D := with_disk (env_at (friday 10 0)) OpenRaises in
  (fst (run_cycle E init (fresh Absent)) = Ok NotifyFailed /\
   count_writes (trace w') = 0%nat /\ status_file w' = Absent) /\
  (fst (run_cycle D init (fresh Absent)) = Raise OSError /\
   status_file (snd (run_cycle D init (fresh Absent))) = Absent).
Proof.
  cbv zeta. split.
  - destruct (ledger_written_only_after_send
                (env_with (friday 10 0) false (Some seven_items) PostRaises) init
                (fresh Absent) _ _ _ (surjective_pairing _) eq_refl)
      as (_ & H & _).
    destruct (H (content_of (listing seven_items))) as (Hr & _ & Hc & Hf).
    + vm_compute. right. left. reflexivity.
    + intros (text & _ & v & Hv & _). vm_compute in Hv. discriminate.
    + auto.
  - set (c := run_cycle (with_disk (env_at (friday 10 0)) OpenRaises) init (fresh Absent)).
    destruct (ledger_written_only_after_send
                (with_disk (env_at (friday 10 0)) OpenRaises) init
                (fresh Absent) (fst c) (snd c) (trace (snd c))
                (surjective_pairing c) eq_refl)
      as (_ & _ & _ & _ & _ & H & _).
    destruct H as (content & text & k & _ & _ & Hr & _ & Hf).
    + exists (message_text (content_of (listing [])) (friday 10 0)). split.
      * let v := eval vm_compute in (trace (snd c)) in
        assert (Ht : trace (snd c) = v) by (vm_compute; reflexivity).
        rewrite Ht. right. right. left. vm_compute. reflexivity.
      * exists (VInt 0). split; reflexivity.
    + split; [exact Hr | exact Hf].
Defined.

Lemma outside_hours_wait_witness :
  exists k,
    trace (snd (run_cycle (env_at (friday 8 0)) init (fresh Absent)))
    = [EvSleep (Z.max 0 (outside_wait (clock (env_at (friday 8 0)) (S k))))].
Proof.
  destruct (outside_hours_wait (env_at (friday 8 0)) (fresh Absent)
              (snd (run_cycle (env_at (friday 8 0)) init (fresh Absent))))
    as (k & _ & _ & _ & _ & Ht & _).
  - intros k. apply (friday_clock_real 8 0); lia.
  - vm_compute. reflexivity.
  - exists k. exact Ht.
Defined.

Lemma friday_in_hours (test : bool) (page : option (list stock_item))
  (reply : post_result) (k : nat) :
  in_hours_at (env_with (friday 10 0) test page reply) init k = Ok true.
Proof. destruct test; reflexivity. Qed.

Lemma no_listings_completes_the_check_witness :
  let r := run_cycle (env_at (friday 10 0)) init (fresh Absent) in
  In (EvNotify ("1. " +++ no_stock_info)) (trace (snd r)) /\ fst r = Ok Pushed.
Proof.
  cbv zeta.
  set (E := env_at (friday 10 0)).
  set (c := run_cycle E init (fresh Absent)).
  destruct (no_listings_completes_the_check E (fresh Absent) (fst c) (snd c)
              (trace (snd c)) eq_refl) as (_ & _ & H).
  destruct H as ((rest & Hr) & _ & Hp).
  - right. vm_compute. reflexivity.
  - intros k (t & s & Hf & _). discriminate Hf.
  - intros k. apply friday_in_hours.
  - apply surjective_pairing.
  - reflexivity.
  - split; [rewrite Hr; cbn; auto|]. apply Hp.
    + vm_compute. discriminate.
    + intros text. exists (VInt 0). split; reflexivity.
    + apply (friday_clock_real 10 0); lia.
    + intros k. reflexivity.
Defined.

Lemma at_most_five_listings_witness :
  let E := env_with (friday 10 0) false (Some seven_items) PostRaises in
  (exists stocks,
     fst (crawl_new_stocks E (fresh Absent)) = Ok (Some stocks) /\
     List.length stocks = 5%nat /\ (1 <= List.length stocks <= 5)%nat) /\
  In (EvNotify (content_of (listing seven_items)))
     (trace (snd (run_cycle E init (fresh Absent)))) /\
  List.length (numbered 0 (listing seven_items)) = 5%nat.
Proof.
  cbv zeta. split; [|split].
  - eexists. split; [vm_compute; reflexivity|]. split; [reflexivity|].
    eapply (proj1 (at_most_five_listings
                     (env_with (friday 10 0) false (Some seven_items) PostRaises)
                     init (fresh Absent))).
    vm_compute. reflexivity.
  - set (E := env_with (friday 10 0) false (Some seven_items) PostRaises).
    set (c := run_cycle E init (fresh Absent)).
    destruct (proj2 (at_most_five_listings E init (fresh Absent))
                (fst c) (snd c) (trace (snd c)) (surjective_pairing c) eq_refl)
      as (_ & _ & _ & H).
    apply H.
    + right. vm_compute. reflexivity.
    + intros k (t & s & Hf & _). discriminate Hf.
    + intros k. apply friday_in_hours.
    + reflexivity.
  - reflexivity.
Defined.

(** * Further properties *)

(** ** Configuration *)

Lemma lower_char_t (c : ascii) : lower_char c = "t"%char <-> (c = "t" \/ c = "T")%char.
Proof.
  destruct c as [[] [] [] [] [] [] [] []]; vm_compute;
    (split; [intros H; first [discriminate H | now left | now right]
            | intros [H|H]; first [discriminate H | reflexivity]]).
Qed.

Lemma lower_char_r (c : ascii) : lower_char c = "r"%char <-> (c = "r" \/ c = "R")%char.
Proof.
  destruct c as [[] [] [] [] [] [] [] []]; vm_compute;
    (split; [intros H; first [discriminate H | now left | now right]
            | intros [H|H]; first [discriminate H | reflexivity]]).
Qed.

Lemma lower_char_u (c : ascii) : lower_char c = "u"%char <-> (c = "u" \/ c = "U")%char.
Proof.
  destruct c as [[] [] [] [] [] [] [] []]; vm_compute;
    (split; [intros H; first [discriminate H | now left | now right]
            | intros [H|H]; first [discriminate H | reflexivity]]).
Qed.

Lemma lower_char_e (c : ascii) : lower_char c = "e"%char <-> (c = "e" \/ c = "E")%char.
Proof.
  destruct c as [[] [] [] [] [] [] [] []]; vm_compute;
    (split; [intros H; first [discriminate H | now left | now right]
            | intros [H|H]; first [discriminate H | reflexivity]]).
Qed.

Lemma lower_true (v : string) : lower v = "true" <-> spells_true v.
Proof.
  unfold spells_true. split.
  - destruct v as [|c1 [|c2 [|c3 [|c4 [|c5 v]]]]]; cbn [lower]; intros H;
      try discriminate H.
    injection H as H1 H2 H3 H4.
    exists c1, c2, c3, c4. split; [reflexivity|].
    rewrite <- lower_char_t, <- lower_char_r, <- lower_char_u, <- lower_char_e. auto.
  - intros (c1 & c2 & c3 & c4 & -> & H1 & H2 & H3 & H4). cbn [lower].
    apply lower_char_t in H1. apply lower_char_r in H2.
    apply lower_char_u in H3. apply lower_char_e in H4.
    now rewrite H1, H2, H3, H4.
Qed.

(** X1. Test mode is on exactly when the variable [TEST_MODE] is set to
    the word true in any mix of cases; unset, it is off. *)
Theorem TEST_MODE_any_case (E : Env) :
  (environ E "TEST_MODE" = None -> TEST_MODE E = false) /\
  (forall v, environ E "TEST_MODE" = Some v -> (TEST_MODE E = true <-> spells_true v)).
Proof.
  unfold TEST_MODE, getenv. split.
  - intros ->. reflexivity.
  - intros v ->. rewrite String.eqb_eq. apply lower_true.
Qed.

Lemma TEST_MODE_any_case_witness :
  TEST_MODE (env_test (friday 10 0)) = true /\ TEST_MODE (env_at (friday 10 0)) = false.
Proof.
  split.
  - apply (proj2 (TEST_MODE_any_case (env_test (friday 10 0))) "True" eq_refl).
    exists "T"%char, "r"%char, "u"%char, "e"%char. auto 10.
  - apply (proj1 (TEST_MODE_any_case (env_at (friday 10 0)))). reflexivity.
Defined.

(** ** The notifier *)

(** X2. [send_wechat_message] never raises and never touches the ledger.
    Without a webhook it answers False at once: no request is made and the
    clock is not read.  With one it makes exactly one request, and answers
    True exactly when the reply carries an [errcode] equal to 0. *)
Theorem send_wechat_message_outcome (E : Env) (content : string) (w : World)
  (r : result bool) (w' : World) :
  send_wechat_message E content w = (r, w') ->
  status_file w' = status_file w /\ gets w' = gets w /\
  (WECHAT_WEBHOOK E = EmptyString ->
     r = Ok false /\ posts w' = posts w /\ ticks w' = ticks w /\
     trace w' = (trace w ++ [EvNotify content])%list) /\
  (WECHAT_WEBHOOK E <> EmptyString ->
     let text := message_text content (clock E (ticks w)) in
     posts w' = S (posts w) /\ ticks w' = S (ticks w) /\
     trace w' = (trace w ++ [EvNotify content; EvPost text])%list /\
     exists b, r = Ok b /\ (b = true <-> accepted E (posts w) text)).
Proof.
  unfold send_wechat_message, bind, emit, now, post_message, ret.
  destruct (String.eqb_spec (WECHAT_WEBHOOK E) EmptyString) as [Hw|Hw].
  - intros H. injection H as <- <-. cbn [ticks gets posts status_file trace].
    split; [reflexivity|]. split; [reflexivity|].
    split; [intros _; repeat split; reflexivity|]. intros Hn. contradiction.
  - cbn [ticks gets posts status_file trace].
    set (text := message_text content (clock E (ticks w))).
    destruct (http_post E (posts w) text) as [|v] eqn:Hp;
      intros H; injection H as <- <-; cbn [ticks gets posts status_file trace];
      (split; [reflexivity|]); (split; [reflexivity|]);
      (split; [intros Hn; contradiction|]); intros _;
      (split; [reflexivity|]); (split; [reflexivity|]);
      (split; [rewrite <- app_assoc; reflexivity|]);
      eexists; (split; [reflexivity|]).
    + split; [discriminate|]. intros (v & Hv & _). congruence.
    + split.
      * intros Hz. exists v. auto.
      * intros (v' & Hv & Hz). congruence.
Qed.

Lemma send_wechat_message_outcome_witness :
  let E := env_with (friday 10 0) false (Some []) (PostReply (VInt 40008)) in
  fst (send_wechat_message E "1. A" (fresh Absent)) = Ok false /\
  posts (snd (send_wechat_message E "1. A" (fresh Absent))) = 1%nat.
Proof.
  cbv zeta.
  set (E := env_with (friday 10 0) false (Some []) (PostReply (VInt 40008))).
  destruct (send_wechat_message_outcome E "1. A" (fresh Absent) _ _ (surjective_pairing _))
    as (_ & _ & _ & H).
  destruct H as (Hp & _ & _ & b & Hb & Hacc).
  - vm_compute. discriminate.
  - split; [|exact Hp]. rewrite Hb. f_equal.
    destruct b; [|reflexivity]. exfalso.
    destruct (proj1 Hacc eq_refl) as (v & Hv & Hz).
    vm_compute in Hv. injection Hv as <-. vm_compute in Hz. discriminate.
Defined.

(** ** The data source *)

Lemma count_ev_app (p : event -> bool) (a b : list event) :
  count_ev p (a ++ b) = (count_ev p a + count_ev p b)%nat.
Proof. unfold count_ev. now rewrite filter_app, length_app. Qed.

(** X3. The result of a fetch depends on the first five elements of the
    page only, keeps their order, and keeps all of a page of one to five
    elements. *)
Theorem crawl_new_stocks_first_five (E E' : Env) (w w' : World)
  (items extra : list stock_item) :
  http_get E (gets w) = Some items ->
  (items <> [] -> (List.length items <= 5)%nat ->
     fst (crawl_new_stocks E w) = Ok (Some (map format_stock items))) /\
  ((5 <= List.length items)%nat ->
     http_get E' (gets w') = Some (items ++ extra)%list ->
     fst (crawl_new_stocks E' w') = fst (crawl_new_stocks E w) /\
     fst (crawl_new_stocks E w) = Ok (Some (map format_stock (firstn 5 items)))).
Proof.
  intros Hg. rewrite !crawl_new_stocks_run, Hg. cbn [fst option_map]. split.
  - intros Hn Hl. rewrite listing_nonempty by assumption.
    now rewrite firstn_all2 by assumption.
  - intros Hl Hg'. rewrite Hg'. cbn [option_map].
    assert (He : listing (items ++ extra) = listing items).
    { unfold listing. rewrite firstn_app.
      replace (5 - List.length items)%nat with 0%nat by lia.
      cbn [firstn]. now rewrite app_nil_r. }
    rewrite He. split; [reflexivity|].
    rewrite listing_nonempty; [reflexivity|].
    intros ->. cbn in Hl. lia.
Qed.

Lemma crawl_new_stocks_first_five_witness :
  let E := env_with (friday 10 0) false (Some (firstn 5 seven_items)) PostRaises in
  let E' := env_with (friday 10 0) false (Some seven_items) PostRaises in
  fst (crawl_new_stocks E' (fresh Absent)) = fst (crawl_new_stocks E (fresh Absent)).
Proof.
  cbv zeta.
  apply (proj2 (crawl_new_stocks_first_five
                  (env_with (friday 10 0) false (Some (firstn 5 seven_items)) PostRaises)
                  (env_with (friday 10 0) false (Some seven_items) PostRaises)
                  (fresh Absent) (fresh Absent) (firstn 5 seven_items)
                  (skipn 5 seven_items) eq_refl)).
  - vm_compute. lia.
  - reflexivity.
Defined.

(** X4. The notifier's list numbers the entries 1, 2, ... in their order:
    it has one line per entry, and the entry at position [k] (from 0) is
    prefixed with [k + 1], a dot and a blank. *)
Theorem numbered_from_one (stocks : list string) :
  List.length (numbered 0 stocks) = List.length stocks /\
  forall k s, nth_error stocks k = Some s ->
    nth_error (numbered 0 stocks) k = Some (str_of_nat (k + 1) +++ ". " +++ s).
Proof.
  split; [apply numbered_length|]. intros k s H.
  apply (numbered_nth 0 k stocks s H).
Qed.

Lemma numbered_from_one_witness :
  nth_error (numbered 0 ["A"; "B"; "C"]) 2 = Some "3. C".
Proof.
  apply (proj2 (numbered_from_one ["A"; "B"; "C"]) 2%nat "C"). reflexivity.
Defined.

(** ** The loop *)

Lemma in_hours_at_test_mode (E : Env) (self : NewStockPusher) (k : nat) :
  TEST_MODE E = true -> in_hours_at E self k = Ok true.
Proof. intros H. unfold in_hours_at, is_in_trading_hours. now rewrite H. Qed.

(** X5. In test mode an iteration never ends in NotTradingDay nor in
    OutsideTradingHours, whatever the day and the time: it finds the push
    recorded, or it goes on to the fetch. *)
Theorem test_mode_opens_the_gates (E : Env) (self : NewStockPusher) (w : World)
  (r : result phase) (w' : World) (evs : list event) :
  TEST_MODE E = true ->
  run_cycle E self w = (r, w') -> trace w' = (trace w ++ evs)%list ->
  r <> Ok NotTradingDay /\ r <> Ok OutsideTradingHours /\
  (In EvCrawl evs \/
   exists k, ledger_says E (status_file w) (strftime_date (clock E k))).
Proof.
  intros HT H Ht.
  apply run_cycle_paths in H as (evs' & Ht' & Hc).
  rewrite Ht' in Ht. apply app_inv_head in Ht. subst evs'.
  inversion Hc; subst; clear Hc.
  - congruence.
  - unfold next_day_wait in *. destruct (add_days _ _);
      match goal with H : _ /\ _ |- _ => destruct H as [-> ->] end;
      (split; [discriminate|]); (split; [discriminate|]); right; eauto.
  - match goal with H : in_hours_at _ _ _ = _ |- _ =>
      rewrite in_hours_at_test_mode in H by assumption; discriminate H end.
  - repeat split; try discriminate. left. cbn. auto.
  - repeat split; try discriminate. left. cbn. auto.
  - repeat split; try discriminate. left. cbn. auto.
  - unfold next_day_wait in *. destruct (add_days _ _);
      match goal with H : _ /\ _ |- _ => destruct H as [-> ->] end;
      (split; [discriminate|]); (split; [discriminate|]); left; cbn; auto.
  - repeat split; try discriminate. left. cbn. auto.
  - repeat split; try discriminate. left. cbn. auto.
Qed.

Lemma test_mode_opens_the_gates_witness :
  let c := run_cycle (env_test (saturday 20 0)) init (fresh Absent) in
  fst c <> Ok NotTradingDay /\ fst c <> Ok OutsideTradingHours.
Proof.
  cbv zeta.
  set (c := run_cycle (env_test (saturday 20 0)) init (fresh Absent)).
  destruct (test_mode_opens_the_gates (env_test (saturday 20 0)) init (fresh Absent)
              (fst c) (snd c) (trace (snd c)) eq_refl (surjective_pairing c) eq_refl)
    as (H1 & H2 & _).
  split; assumption.
Defined.

(** X6. An iteration ends in NotTradingDay exactly when test mode is off
    and the clock, read a second time, shows a Saturday or a Sunday; it
    then has neither read the ledger nor sent anything, and sleeps six
    hours. *)
Theorem not_trading_day_exactly (E : Env) (self : NewStockPusher) (w : World)
  (r : result phase) (w' : World) :
  run_cycle E self w = (r, w') ->
  (r = Ok NotTradingDay <->
   TEST_MODE E = false /\ 5 <= weekday (clock E (S (ticks w)))) /\
  (r = Ok NotTradingDay ->
   trace w' = (trace w ++ [EvSleep (6 * 3600 * 1000000)])%list /\
   status_file w' = status_file w).
Proof.
  intros H. apply run_cycle_paths in H as (evs & Ht & Hc).
  assert (Hno : calendar_passes E w ->
                ~ (TEST_MODE E = false /\ 5 <= weekday (clock E (S (ticks w))))).
  { intros [Hp|Hp] [Hm Hd]; [congruence | lia]. }
  inversion Hc; subst; clear Hc;
    try (unfold next_day_wait in *; destruct (add_days _ _);
         match goal with H : _ /\ _ |- _ => destruct H as [-> ->] end);
    try (split; [split; [discriminate | intros Hx; exfalso; now apply Hno]
                | discriminate]).
  split; [split; auto|]. intros _. split; [exact Ht | congruence].
Qed.

Lemma not_trading_day_exactly_witness :
  fst (run_cycle (env_at (saturday 10 0)) init (fresh Absent)) = Ok NotTradingDay.
Proof.
  set (c := run_cycle (env_at (saturday 10 0)) init (fresh Absent)).
  apply (proj1 (not_trading_day_exactly (env_at (saturday 10 0)) init (fresh Absent)
                  (fst c) (snd c) (surjective_pairing c))).
  split; [reflexivity | vm_compute; discriminate].
Defined.

(** X7. Every iteration that completes ends with its one sleep, of a
    duration that is not negative, and has not slept before.  An exception
    that escapes an iteration is the [OverflowError] of the day after the
    last, or the [OSError] of a ledger write that failed behind an accepted
    webhook request; it is raised before any sleep. *)
Theorem one_sleep_per_iteration (E : Env) (self : NewStockPusher) (w : World)
  (r : result phase) (w' : World) (evs : list event) :
  run_cycle E self w = (r, w') -> trace w' = (trace w ++ evs)%list ->
  (forall p, r = Ok p ->
     exists pre us, evs = (pre ++ [EvSleep us])%list /\ 0 <= us /\
                    count_ev is_sleep pre = 0%nat) /\
  (forall e, r = Raise e ->
     (e = OverflowError \/
      (e = OSError /\ delivered E (posts w) evs /\ count_writes evs = 0%nat)) /\
     count_ev is_sleep evs = 0%nat).
Proof.
  intros H Ht.
  apply run_cycle_paths in H as (evs' & Ht' & Hc).
  rewrite Ht' in Ht. apply app_inv_head in Ht. subst evs'.
  assert (Hm : forall x, 0 <= Z.max 0 x) by (intros; lia).
  cycle_cases Hc; (split; [intros p Hp | intros e He]);
    try discriminate;
    try (injection He as <-; split; [left; reflexivity | reflexivity]);
    try (injection He as <-; split; [right | reflexivity];
         split; [reflexivity|]; split; [|reflexivity];
         eexists; split; [cbn [In]; eauto 6 | eassumption]).
  - exists [], (6 * 3600 * second_us). unfold second_us. repeat split. lia.
  - eexists [], _. repeat split. apply Hm.
  - eexists [], _. repeat split. apply Hm.
  - exists [EvCrawl], (30 * 60 * second_us). unfold second_us. repeat split. lia.
  - eexists [EvCrawl; EvNotify _], (30 * 60 * second_us). unfold second_us.
    repeat split. lia.
  - eexists [EvCrawl; EvNotify _; EvPost _], (30 * 60 * second_us). unfold second_us.
    repeat split. lia.
  - eexists [EvCrawl; EvNotify _; EvPost _; EvWrite _], _. repeat split. apply Hm.
Qed.

Lemma one_sleep_per_iteration_witness :
  let c := run_cycle (env_at (friday 10 0)) init (fresh Absent) in
  exists pre us, trace (snd c) = (pre ++ [EvSleep us])%list /\ 0 <= us.
Proof.
  cbv zeta.
  set (c := run_cycle (env_at (friday 10 0)) init (fresh Absent)).
  destruct (one_sleep_per_iteration (env_at (friday 10 0)) init (fresh Absent)
              (fst c) (snd c) (trace (snd c)) (surjective_pairing c) eq_refl) as [H _].
  destruct (H Pushed) as (pre & us & Hp & Hu & _).
  - vm_compute. reflexivity.
  - exists pre, us. split; assumption.
Defined.

(** What one iteration sends out, in numbers. *)
Lemma cycle_counts (E : Env) (self : NewStockPusher) (w : World)
  (r : result phase) (w' : World) :
  run_cycle E self w = (r, w') ->
  exists evs, trace w' = (trace w ++ evs)%list /\
    (count_ev is_crawl evs <= 1)%nat /\
    (count_ev is_notify evs <= count_ev is_crawl evs)%nat /\
    (count_ev is_post evs <= count_ev is_notify evs)%nat /\
    (count_writes evs <= count_ev is_post evs)%nat /\
    (WECHAT_WEBHOOK E = EmptyString ->
     count_ev is_post evs = 0%nat /\ status_file w' = status_file w).
Proof.
  intros H. apply run_cycle_paths in H as (evs & Ht & Hc).
  exists evs. split; [exact Ht|].
  cycle_cases Hc; cbn; repeat split; try lia; try contradiction; congruence.
Qed.

(** X8. Over any number of iterations the loop fetches at most once per
    iteration, calls the notifier only after a fetch, posts only from the
    notifier and writes the ledger only after a post. *)
Theorem requests_are_bounded (E : Env) (self : NewStockPusher) (n : nat) (w : World)
  (r : result (list phase)) (w' : World) :
  run E self n w = (r, w') ->
  exists evs, trace w' = (trace w ++ evs)%list /\
    (count_ev is_crawl evs <= n)%nat /\
    (count_ev is_notify evs <= count_ev is_crawl evs)%nat /\
    (count_ev is_post evs <= count_ev is_notify evs)%nat /\
    (count_writes evs <= count_ev is_post evs)%nat.
Proof.
  revert w r w'. induction n as [|n IH]; intros w r w' H.
  - injection H as <- <-. exists []. rewrite app_nil_r. cbn. repeat split; lia.
  - cbn [run] in H. unfold bind at 1 in H.
    destruct (run_cycle E self w) as [r1 w1] eqn:H1.
    apply cycle_counts in H1 as (evs1 & T1 & C1 & N1 & P1 & W1 & _).
    destruct r1 as [p|e].
    2: { injection H as <- <-. exists evs1. repeat split; try assumption; lia. }
    unfold bind, ret in H.
    destruct (run E self n w1) as [r2 w2] eqn:H2.
    apply IH in H2 as (evs2 & T2 & C2 & N2 & P2 & W2).
    assert (Hw : w' = w2) by (destruct r2; now injection H). subst w'. clear H.
    exists (evs1 ++ evs2)%list.
    split; [rewrite T2, T1, app_assoc; reflexivity|].
    rewrite count_writes_app, !count_ev_app. repeat split; lia.
Qed.

Lemma requests_are_bounded_witness :
  let c := run (env_with (friday 10 0) false None PostRaises) init 4 (fresh Absent) in
  (count_ev is_crawl (trace (snd c)) <= 4)%nat.
Proof.
  cbv zeta.
  set (c := run (env_with (friday 10 0) false None PostRaises) init 4 (fresh Absent)).
  destruct (requests_are_bounded (env_with (friday 10 0) false None PostRaises) init 4
              (fresh Absent) (fst c) (snd c) (surjective_pairing c))
    as (evs & Ht & Hc & _).
  cbn [trace fresh app] in Ht. rewrite Ht. exact Hc.
Defined.

(** X9. Without a webhook in the environment the loop never makes a
    webhook request and never writes the ledger, however long it runs. *)
Theorem no_webhook_no_push (E : Env) (self : NewStockPusher) (n : nat) (w : World)
  (r : result (list phase)) (w' : World) :
  WECHAT_WEBHOOK E = EmptyString ->
  run E self n w = (r, w') ->
  exists evs, trace w' = (trace w ++ evs)%list /\
    count_ev is_post evs = 0%nat /\ count_writes evs = 0%nat /\
    status_file w' = status_file w.
Proof.
  intros Hw. revert w r w'. induction n as [|n IH]; intros w r w' H.
  - injection H as <- <-. exists []. rewrite app_nil_r. cbn. auto.
  - cbn [run] in H. unfold bind at 1 in H.
    destruct (run_cycle E self w) as [r1 w1] eqn:H1.
    apply cycle_counts in H1 as (evs1 & T1 & _ & _ & _ & W1 & N1).
    destruct (N1 Hw) as [P1 F1].
    destruct r1 as [p|e].
    2: { injection H as <- <-. exists evs1. repeat split; try assumption; lia. }
    unfold bind, ret in H.
    destruct (run E self n w1) as [r2 w2] eqn:H2.
    apply IH in H2 as (evs2 & T2 & P2 & W2 & F2).
    assert (Hw' : w' = w2) by (destruct r2; now injection H). subst w'. clear H.
    exists (evs1 ++ evs2)%list.
    split; [rewrite T2, T1, app_assoc; reflexivity|].
    rewrite count_writes_app, !count_ev_app. repeat split; try lia. congruence.
Qed.

Lemma no_webhook_no_push_witness :
  let c := run (env_bare (friday 10 0)) init 3 (fresh Absent) in
  count_ev is_post (trace (snd c)) = 0%nat /\ status_file (snd c) = Absent.
Proof.
  cbv zeta.
  set (c := run (env_bare (friday 10 0)) init 3 (fresh Absent)).
  destruct (no_webhook_no_push (env_bare (friday 10 0)) init 3 (fresh Absent)
              (fst c) (snd c) eq_refl (surjective_pairing c))
    as (evs & Ht & Hp & _ & Hf).
  cbn [trace fresh app] in Ht. rewrite Ht. split; assumption.
Defined.

(** X10. When every gate is open (the calendar check passes, no push is
    recorded for any date the clock shows, the clock is inside the trading
    hours, the page is fetched, a webhook is set and accepts) and the
    ledger file can be written, the iteration pushes: it ends in Pushed
    and leaves a ledger record made of two consecutive clock readings. *)
Theorem open_gates_push (E : Env) (self : NewStockPusher) (w : World)
  (items : list stock_item) (r : result phase) (w' : World) :
  real_clock E ->
  calendar_passes E w ->
  (forall k, ~ ledger_says E (status_file w) (strftime_date (clock E k))) ->
  (forall k, in_hours_at E self k = Ok true) ->
  http_get E (gets w) = Some items ->
  WECHAT_WEBHOOK E <> EmptyString ->
  (forall text, accepted E (posts w) text) ->
  (forall k, fs_write E k = Written) ->
  run_cycle E self w = (r, w') ->
  r = Ok Pushed /\
  exists k, (ticks w <= k)%nat /\
    status_file w' = Contents (ledger_text (clock E k) (clock E (S k))).
Proof.
  intros Hc Hp Hl Hh Hg Hw Ha Hd H.
  apply run_cycle_paths in H as (evs & Ht & Hy).
  inversion Hy; subst; clear Hy.
  - exfalso. destruct Hp as [Hp|Hp]; [congruence | lia].
  - exfalso. eapply Hl. eassumption.
  - exfalso. match goal with H : in_hours_at _ _ _ = Ok false |- _ =>
      rewrite Hh in H; discriminate H end.
  - congruence.
  - contradiction.
  - exfalso. match goal with H : ~ accepted _ _ _ |- _ => apply H, Ha end.
  - match goal with H : next_day_wait _ _ _ _ _ |- _ =>
      apply next_day_wait_0800 in H as [-> ->]; try apply Hc end.
    split; [reflexivity|]. exists (S k). split; [lia | reflexivity].
  - exfalso. match goal with H : fs_write _ _ = _ |- _ =>
      rewrite Hd in H; discriminate H end.
  - exfalso. match goal with H : fs_write _ _ = _ |- _ =>
      rewrite Hd in H; discriminate H end.
Qed.

Lemma saturday_clock_real (h m : Z) (test : bool) (page : option (list stock_item))
  (reply : post_result) :
  0 <= h < 24 -> 0 <= m < 60 -> real_clock (env_with (saturday h m) test page reply).
Proof.
  intros Hh Hm k.
  cbn [clock env_with saturday year month day hour minute second microsecond].
  split.
  - unfold valid. cbn [year month day hour minute second microsecond].
    change (days_in_month 2024 1) with 31. lia.
  - vm_compute. reflexivity.
Qed.

Lemma open_gates_push_witness :
  fst (run_cycle (env_test (saturday 20 0)) init (fresh Absent)) = Ok Pushed.
Proof.
  set (E := env_test (saturday 20 0)).
  set (c := run_cycle E init (fresh Absent)).
  apply (open_gates_push E init (fresh Absent) [] (fst c) (snd c)).
  - apply (saturday_clock_real 20 0); lia.
  - left. reflexivity.
  - intros k (t & s & H & _). discriminate H.
  - intros k. apply in_hours_at_test_mode. reflexivity.
  - reflexivity.
  - vm_compute. discriminate.
  - intros text. exists (VInt 0). split; reflexivity.
  - intros k. reflexivity.
  - apply surjective_pairing.
Defined.

(** ** Waiting times, bounded *)

Lemma us_of_day_range (t : datetime) : valid t -> 0 <= us_of_day t < 86400 * 1000000.
Proof.
  intros (_ & _ & _ & Hh & Hm & Hs & Hu). unfold us_of_day, seconds_of_day. lia.
Qed.

(** X11. When the two clock readings of the wait for the next day fall on
    one date, the sleep lasts more than 8 hours and at most 32: the clamp
    at zero plays no part. *)
Theorem next_day_sleep_bounds (E : Env) (w : World) (r : result unit) (w' : World) :
  let t1 := clock E (ticks w) in
  let t2 := clock E (S (ticks w)) in
  valid t1 -> valid t2 -> same_date t1 t2 -> toordinal t1 < MAXORDINAL ->
  sleep_until_next_day E w = (r, w') ->
  r = Ok tt /\
  exists us, trace w' = (trace w ++ [EvSleep us])%list /\
    us = (32 * 3600) * 1000000 - us_of_day t2 /\
    8 * 3600 * 1000000 < us <= 32 * 3600 * 1000000.
Proof.
  intros t1 t2 H1 H2 Hs Hm. subst t1 t2.
  unfold sleep_until_next_day, bind, now, plus_one_day, sleep, emit, ret.
  cbn [ticks gets posts status_file trace].
  destruct (add_days_defined _ H1 Hm) as [t' Ht]. rewrite Ht.
  intros H. injection H as <- <-. split; [reflexivity|].
  cbn [trace]. eexists. split; [reflexivity|].
  rewrite (sub_us_next_0800 (clock E (ticks w)) (clock E (S (ticks w))) t')
    by (now apply toordinal_add_days).
  unfold until_next_0800. rewrite (toordinal_same_date _ _ Hs).
  pose proof (us_of_day_range _ H2). lia.
Qed.

Lemma next_day_sleep_bounds_witness :
  exists us,
    trace (snd (sleep_until_next_day (env_at (friday 10 0)) (fresh Absent)))
    = [EvSleep us] /\ 8 * 3600 * 1000000 < us.
Proof.
  set (E := env_at (friday 10 0)).
  set (c := sleep_until_next_day E (fresh Absent)).
  destruct (next_day_sleep_bounds E (fresh Absent) (fst c) (snd c)) as (_ & us & Ht & _ & Hb).
  - apply (friday_clock_real 10 0); lia.
  - apply (friday_clock_real 10 0); lia.
  - repeat split.
  - vm_compute. reflexivity.
  - apply surjective_pairing.
  - exists us. split; [exact Ht | lia].
Defined.

(** The readings of the clock behind an iteration that ends in
    OutsideTradingHours: the last but one is the one the hours check
    judged, the last the one the wait is computed from. *)
Lemma run_cycle_outside (E : Env) (self : NewStockPusher) (w w' : World) :
  run_cycle E self w = (Ok OutsideTradingHours, w') ->
  exists k, ticks w' = S (S k) /\ (ticks w <= k)%nat /\
    in_hours_at E self k = Ok false /\
    trace w' = (trace w ++ [EvSleep (Z.max 0 (wait_outside self (clock E (S k))))])%list.
Proof.
  unfold run_cycle, bind, sleep, emit, ret. unfold now at 1.
  destruct (is_trading_day E _) as [rb w2] eqn:H2.
  apply is_trading_day_stage in H2 as (trading & -> & S2 & C2). use_steady S2.
  destruct trading; cbn [negb]; [|intros H; discriminate H].
  destruct (has_pushed_today E w2) as [rp w3] eqn:H3.
  apply has_pushed_today_stage in H3 as (pushed & -> & S3 & C3). use_steady S3.
  destruct pushed.
  { destruct (sleep_until_next_day E w3) as [[] w4]; intros H; discriminate H. }
  destruct (is_in_trading_hours E self w3) as [ri w4] eqn:H4.
  apply is_in_trading_hours_stage in H4 as (inside & -> & S4 & C4). use_steady S4.
  destruct inside; cbn [negb].
  2: { destruct (C4 eq_refl) as [C4' K4]. unfold now. rewrite K4.
       intros H; injection H as <-. cbn [trace ticks].
       exists (ticks w3). split; [reflexivity|]. split; [lia|]. split; [assumption|].
       rewrite R1, R0, R. reflexivity. }
  rewrite crawl_new_stocks_run.
  destruct (http_get E (gets w4)) as [items|]; cbn [option_map];
    [|intros H; discriminate H].
  destruct (listing items) as [|s0 l0]; [intros H; discriminate H|].
  destruct (send_wechat_message E _ _) as [[[]|] w5]; try (intros H; discriminate H).
  rewrite update_push_status_run.
  destruct (fs_write E _); try (intros H; discriminate H).
  destruct (sleep_until_next_day E _) as [[] w6]; intros H; discriminate H.
Qed.

(** X12. An iteration that ends in OutsideTradingHours has read the clock
    at least twice: the last reading but one is the one the hours check
    found outside the trading hours, and the wait is computed from the
    last one alone: up to 09:30 if that reading is earlier, else up to 13:00
    if it is earlier than that, even when it has meanwhile entered the
    morning session, else 3600 seconds.  The wait is positive, at most nine
    and a half hours, and the clamp at zero plays no part. *)
Theorem outside_hours_sleep_bounds (E : Env) (w : World) (w' : World) :
  (forall k, valid (clock E k)) ->
  run_cycle E init w = (Ok OutsideTradingHours, w') ->
  (ticks w + 2 <= ticks w')%nat /\
  in_hours_at E init (ticks w' - 2) = Ok false /\
  let now := clock E (ticks w' - 1) in
  exists us,
    trace w' = (trace w ++ [EvSleep us])%list /\
    us = outside_wait now /\
    0 < us <= (9 * 3600 + 30 * 60) * 1000000 /\
    (us_of_day now < (9 * 3600 + 30 * 60) * 1000000 ->
     us = (9 * 3600 + 30 * 60) * 1000000 - us_of_day now) /\
    ((9 * 3600 + 30 * 60) * 1000000 <= us_of_day now < 13 * 3600 * 1000000 ->
     us = 13 * 3600 * 1000000 - us_of_day now) /\
    (13 * 3600 * 1000000 <= us_of_day now -> us = 3600 * 1000000).
Proof.
  intros Hv H.
  apply run_cycle_outside in H as (k & Hk & Hw & Hh & Ht).
  rewrite Hk. replace (S (S k) - 2)%nat with k by lia.
  replace (S (S k) - 1)%nat with (S k) by lia.
  split; [lia|]. split; [exact Hh|]. cbv zeta.
  rewrite wait_outside_init in Ht by apply Hv.
  pose proof (us_of_day_range (clock E (S k)) (Hv (S k))) as Hr.
  exists (outside_wait (clock E (S k))).
  assert (Hb : 0 < outside_wait (clock E (S k)) <= (9 * 3600 + 30 * 60) * 1000000 /\
               (us_of_day (clock E (S k)) < (9 * 3600 + 30 * 60) * 1000000 ->
                outside_wait (clock E (S k))
                = (9 * 3600 + 30 * 60) * 1000000 - us_of_day (clock E (S k))) /\
               ((9 * 3600 + 30 * 60) * 1000000 <= us_of_day (clock E (S k))
                < 13 * 3600 * 1000000 ->
                outside_wait (clock E (S k))
                = 13 * 3600 * 1000000 - us_of_day (clock E (S k))) /\
               (13 * 3600 * 1000000 <= us_of_day (clock E (S k)) ->
                outside_wait (clock E (S k)) = 3600 * 1000000)).
  { unfold outside_wait, us_until.
    destruct (Z.ltb_spec (us_of_day (clock E (S k))) ((9 * 3600 + 30 * 60) * 1000000));
      [|destruct (Z.ltb_spec (us_of_day (clock E (S k))) (13 * 3600 * 1000000))];
      repeat split; intros; lia. }
  split; [|split; [reflexivity | exact Hb]].
  rewrite Ht. do 3 f_equal. lia.
Qed.

Lemma outside_hours_sleep_bounds_witness :
  trace (snd (run_cycle (env_at (friday 12 0)) init (fresh Absent)))
  = [EvSleep (3600 * 1000000 - 3)].
Proof.
  set (E := env_at (friday 12 0)).
  set (c := run_cycle E init (fresh Absent)).
  destruct (outside_hours_sleep_bounds E (fresh Absent) (snd c))
    as (_ & _ & us & Ht & _ & _ & _ & Hu & _).
  - intros k. apply (friday_clock_real 12 0); lia.
  - vm_compute. reflexivity.
  - rewrite Ht. cbn [trace fresh app]. rewrite Hu; [reflexivity|].
    vm_compute. split; [discriminate | reflexivity].
Defined.

(** ** The ledger, further *)

Lemma ledger_text_literal (d t : datetime) :
  ledger_text d t =
  "{'last_pushed_date': '" +++ strftime_date d +++ "', 'last_pushed_time': '"
  +++ strftime_time t +++ "'}".
Proof.
  rewrite ledger_text_shape.
  rewrite (repr_plain "last_pushed_date") by reflexivity.
  rewrite (repr_plain "last_pushed_time") by reflexivity.
  rewrite (repr_plain (strftime_date d)) by apply strftime_date_plain.
  rewrite (repr_plain (strftime_time t)) by apply strftime_time_plain.
  cbn [append]. rewrite !append_assoc. reflexivity.
Qed.

Lemma length_append (a b : string) :
  String.length (a +++ b) = (String.length a + String.length b)%nat.
Proof. induction a as [|c a IH]; cbn; [reflexivity | now rewrite IH]. Qed.

(** X13. [update_push_status] opens the ledger file before it reads the
    clock.  When the file cannot be opened, [OSError] escapes and nothing
    has changed: the clock was not read and the file is as it was.
    Otherwise the clock is read twice; when the write is cut short,
    [OSError] escapes and the file holds what the write left of it; when
    the text is stored, it replaces whatever the file held by one record
    of 66 characters, the two [strftime] texts in single quotes under
    their keys, which evaluated gives back both texts. *)
Theorem ledger_record_format (E : Env) (w : World) :
  let d := clock E (ticks w) in
  let t := clock E (S (ticks w)) in
  let text := "{'last_pushed_date': '" +++ strftime_date d
              +++ "', 'last_pushed_time': '" +++ strftime_time t +++ "'}" in
  let c := update_push_status E w in
  match fs_write E (ticks w) with
  | OpenRaises => c = (Raise OSError, w)
  | WriteRaises rest =>
      fst c = Raise OSError /\ status_file (snd c) = Contents rest /\
      trace (snd c) = trace w /\ ticks (snd c) = S (S (ticks w))
  | Written =>
      fst c = Ok tt /\ status_file (snd c) = Contents text /\
      trace (snd c) = (trace w ++ [EvWrite text])%list /\
      ticks (snd c) = S (S (ticks w))
  end /\
  String.length text = 66%nat /\
  forall E', eval_reads_displays E' ->
    exists status, py_eval E' (strip text) = Some (VDict status) /\
      dict_get status "last_pushed_date" (VStr EmptyString) = VStr (strftime_date d) /\
      dict_get status "last_pushed_time" (VStr EmptyString) = VStr (strftime_time t).
Proof.
  intros d t text c. subst text c.
  rewrite <- ledger_text_literal. split; [|split].
  - rewrite update_push_status_run.
    destruct (fs_write E (ticks w)); cbn [fst snd status_file trace ticks]; auto.
  - rewrite ledger_text_literal, !length_append. reflexivity.
  - intros E' He. destruct (strip_ledger_text d t) as [Hs _]. rewrite Hs.
    eexists. split; [apply He, eval_display_ledger_text|]. split; reflexivity.
Qed.

Lemma ledger_record_format_witness :
  status_file (snd (update_push_status (env_at (friday 10 0)) (fresh Unreadable)))
  = Contents "{'last_pushed_date': '2024-01-05', 'last_pushed_time': '10:00:00'}" /\
  update_push_status (with_disk (env_at (friday 10 0)) OpenRaises) (fresh Unreadable)
  = (Raise OSError, fresh Unreadable) /\
  exists status,
    eval_literal "{'last_pushed_date': '2024-01-05', 'last_pushed_time': '10:00:00'}"
    = Some (VDict status) /\
    dict_get status "last_pushed_time" (VStr EmptyString) = VStr "10:00:00".
Proof.
  destruct (ledger_record_format (env_at (friday 10 0)) (fresh Unreadable))
    as (Hf & _ & He).
  destruct (ledger_record_format (with_disk (env_at (friday 10 0)) OpenRaises)
              (fresh Unreadable)) as (Hg & _).
  split; [exact (proj1 (proj2 Hf))|]. split; [exact Hg|].
  destruct (He (env_at (friday 10 0)) (env_with_reads_displays _ _ _ _))
    as (status & Hs & _ & Ht).
  exists status. split; [exact Hs | exact Ht].
Defined.

Lemma dict_get_lacks (status : list (pyval * pyval)) (key : string) (default : pyval) :
  lacks_key status key = true -> dict_get status key default = default.
Proof.
  induction status as [|[k v] l IH]; [reflexivity|].
  destruct k; cbn [lacks_key dict_get]; auto.
  rewrite andb_true_iff, negb_true_iff. intros [-> Hl]. auto.
Qed.

Lemma strftime_date_not_empty (t : datetime) :
  String.eqb EmptyString (strftime_date t) = false.
Proof. rewrite strftime_date_chars. reflexivity. Qed.

(** X14. A ledger that evaluates to a dict without the key
    [last_pushed_date], or with a value under it that is not a string,
    counts as not pushed. *)
Theorem record_without_date_is_not_pushed (E : Env) (w : World) (text : string)
  (status : list (pyval * pyval)) :
  status_file w = Contents text ->
  py_eval E (strip text) = Some (VDict status) ->
  lacks_key status "last_pushed_date" = true \/
  (forall s, dict_get status "last_pushed_date" (VStr EmptyString) <> VStr s) ->
  fst (has_pushed_today E w) = Ok false.
Proof.
  intros Hf Hv Hk.
  unfold has_pushed_today, bind, read_status, ret, now. rewrite Hf.
  destruct (String.eqb (strip text) EmptyString); [reflexivity|].
  rewrite Hv. cbn [fst]. f_equal.
  destruct Hk as [Hk|Hk].
  - rewrite dict_get_lacks by assumption. cbn [eq_str].
    apply strftime_date_not_empty.
  - destruct (dict_get status "last_pushed_date" (VStr EmptyString)) eqn:Hd;
      try reflexivity.
    exfalso. eapply Hk. reflexivity.
Qed.

Lemma record_without_date_is_not_pushed_witness :
  fst (has_pushed_today (env_at (friday 10 0))
         (fresh (Contents "{'last_pushed_time': '10:00:00'}"))) = Ok false.
Proof.
  apply (record_without_date_is_not_pushed (env_at (friday 10 0))
           (fresh (Contents "{'last_pushed_time': '10:00:00'}"))
           "{'last_pushed_time': '10:00:00'}"
           [(VStr "last_pushed_time", VStr "10:00:00")]).
  - reflexivity.
  - vm_compute. reflexivity.
  - left. reflexivity.
Defined.

Lemma lstrip_blank (a s : string) : blank_only a = true -> lstrip (a +++ s) = lstrip s.
Proof.
  induction a as [|c a IH]; cbn [blank_only append lstrip]; [reflexivity|].
  rewrite andb_true_iff. intros [-> Ha]. auto.
Qed.

Lemma lstrip_blank_only (b : string) : blank_only b = true -> lstrip b = EmptyString.
Proof.
  induction b as [|c b IH]; cbn [blank_only lstrip]; [reflexivity|].
  rewrite andb_true_iff. intros [-> Hb]. auto.
Qed.

Lemma blank_only_low_head (b : string) : blank_only b = true -> low_head b.
Proof.
  destruct b as [|c b]; cbn [blank_only low_head]; [trivial|].
  rewrite andb_true_iff. intros [Hc _]. now apply isspace_low.
Qed.

Lemma rstrip_blank_only (b : string) : blank_only b = true -> rstrip b = EmptyString.
Proof.
  intros Hb. destruct b as [|c b]; [reflexivity|].
  cbn [rstrip]. now rewrite (lstrip_blank_only _ Hb).
Qed.

Lemma rstrip_blank (s b : string) : blank_only b = true -> rstrip (s +++ b) = rstrip s.
Proof.
  intros Hb. induction s as [|c s IH]; cbn [append rstrip].
  - now apply rstrip_blank_only.
  - rewrite IH. change (String c (s +++ b)) with (String c s +++ b).
    rewrite lstrip_app by now apply blank_only_low_head.
    rewrite (lstrip_blank_only b Hb).
    destruct (String.eqb_spec (lstrip (String c s)) EmptyString) as [He|He];
      [reflexivity|].
    destruct (lstrip (String c s)); [contradiction|reflexivity].
Qed.

Lemma strip_blank_right (s b : string) :
  blank_only b = true -> strip (s +++ b) = strip s.
Proof.
  intros Hb. unfold strip.
  rewrite lstrip_app by now apply blank_only_low_head.
  rewrite (lstrip_blank_only b Hb).
  destruct (String.eqb_spec (lstrip s) EmptyString) as [He|He].
  - now rewrite He.
  - now apply rstrip_blank.
Qed.

Lemma strip_blank_around (a s b : string) :
  blank_only a = true -> blank_only b = true -> strip (a +++ s +++ b) = strip s.
Proof.
  intros Ha Hb. rewrite <- (strip_blank_right s b Hb).
  unfold strip. now rewrite lstrip_blank.
Qed.

(** X15. Whitespace before and after the record in the ledger file makes
    no difference to [has_pushed_today]. *)
Theorem has_pushed_today_ignores_blank_margins (E : Env) (w : World)
  (a text b : string) :
  blank_only a = true -> blank_only b = true ->
  fst (has_pushed_today E (with_file w (Contents (a +++ text +++ b))))
  = fst (has_pushed_today E (with_file w (Contents text))).
Proof.
  intros Ha Hb. unfold has_pushed_today, bind, read_status, ret, now, with_file.
  cbn [status_file ticks]. rewrite strip_blank_around by assumption.
  destruct (String.eqb (strip text) EmptyString); [reflexivity|].
  destruct (py_eval E (strip text)) as [[]|]; reflexivity.
Qed.

Lemma has_pushed_today_ignores_blank_margins_witness :
  fst (has_pushed_today (env_at (friday 10 0))
         (with_file (fresh Absent)
            (Contents ("  " +++ ledger_text (friday 9 0) (friday 9 0)
                       +++ String newline EmptyString))))
  = Ok true.
Proof.
  rewrite (has_pushed_today_ignores_blank_margins (env_at (friday 10 0)) (fresh Absent)
             "  " (ledger_text (friday 9 0) (friday 9 0)) (String newline EmptyString)
             eq_refl eq_refl).
  vm_compute. reflexivity.
Defined.

(** ** Trimmed fields *)

Lemma lstrip_idempotent (s : string) : lstrip (lstrip s) = lstrip s.
Proof.
  induction s as [s IH] using by_length.
  rewrite (lstrip_eq s). destruct (space_prefix s) as [r|] eqn:Hp.
  - apply IH. now apply space_prefix_length.
  - rewrite lstrip_eq, Hp. reflexivity.
Qed.

Lemma lstrip_shorter (s : string) : (String.length (lstrip s) <= String.length s)%nat.
Proof.
  induction s as [s IH] using by_length.
  rewrite (lstrip_eq s). destruct (space_prefix s) as [r|] eqn:Hp; [|lia].
  pose proof (space_prefix_length s r Hp). specialize (IH r H). lia.
Qed.

Lemma lstrip_fixed (s : string) :
  lstrip s = s -> s = EmptyString \/ space_prefix s = None.
Proof.
  intros H. destruct (space_prefix s) as [r|] eqn:Hp; [|now right].
  rewrite lstrip_eq, Hp in H.
  pose proof (space_prefix_length s r Hp). pose proof (lstrip_shorter r).
  rewrite H in H1. lia.
Qed.

Lemma rstrip_split (s : string) :
  exists z, s = rstrip s +++ z /\ lstrip z = EmptyString.
Proof.
  induction s as [|c s [z [Hs Hz]]]; [exists EmptyString; now split|].
  cbn [rstrip]. destruct (String.eqb_spec (lstrip (String c s)) EmptyString) as [He|He].
  - exists (String c s). now split.
  - exists z. split; [|exact Hz]. cbn [append]. now rewrite <- Hs.
Qed.

Lemma lstrip_rstrip_empty (s : string) :
  lstrip (rstrip s) = EmptyString -> lstrip s = EmptyString.
Proof.
  intros H. destruct (rstrip_split s) as [z [Hs Hz]].
  rewrite Hs, lstrip_app_space by exact H. exact Hz.
Qed.

Lemma rstrip_idempotent (s : string) : rstrip (rstrip s) = rstrip s.
Proof.
  induction s as [|c s IH]; [reflexivity|].
  cbn [rstrip]. destruct (String.eqb_spec (lstrip (String c s)) EmptyString) as [He|He];
    [reflexivity|].
  cbn [rstrip]. rewrite IH.
  destruct (String.eqb_spec (lstrip (String c (rstrip s))) EmptyString) as [Hf|Hf];
    [|reflexivity].
  exfalso. apply He. apply lstrip_rstrip_empty. cbn [rstrip].
  destruct (String.eqb_spec (lstrip (String c s)) EmptyString); [contradiction|exact Hf].
Qed.

Lemma lstrip_rstrip_fixed (y : string) : lstrip y = y -> lstrip (rstrip y) = rstrip y.
Proof.
  intros Hy. destruct (lstrip_fixed y Hy) as [->|Hp]; [reflexivity|].
  destruct (rstrip_split y) as [z [Hs _]].
  rewrite (lstrip_eq (rstrip y)).
  destruct (space_prefix (rstrip y)) as [r|] eqn:Hr; [|reflexivity].
  apply (space_prefix_app _ z) in Hr. rewrite <- Hs, Hp in Hr. discriminate.
Qed.

Lemma strip_idempotent (s : string) : strip (strip s) = strip s.
Proof.
  unfold strip. rewrite lstrip_rstrip_fixed by apply lstrip_idempotent.
  apply rstrip_idempotent.
Qed.

Lemma strip_empty (t : string) : strip t = EmptyString <-> lstrip t = EmptyString.
Proof.
  unfold strip. split; [|now intros ->].
  pose proof (lstrip_idempotent t) as Hi.
  destruct (lstrip t) as [|c r]; [reflexivity|].
  cbn [rstrip]. rewrite Hi. discriminate.
Qed.

Lemma lstrip_spaces (l : list string) (s : string) :
  Forall (fun c => space_prefix c = Some EmptyString) l ->
  lstrip (fold_right String.append s l) = lstrip s.
Proof.
  induction 1 as [|c l Hc _ IH]; [reflexivity|].
  cbn [fold_right]. rewrite lstrip_eq.
  rewrite (space_prefix_app c _ EmptyString Hc). exact IH.
Qed.

(** X16. Every field of a fetched entry is trimmed: stripping it again
    changes nothing, whether the text came from the page or is the
    placeholder of a missing element.  A field is empty exactly when its
    text has nothing left once the leading whitespace is dropped, and so
    for every text made of whitespace characters alone, of one, two or
    three bytes. *)
Theorem field_text_is_trimmed (f : option string) :
  strip (field_text f) = field_text f /\
  (forall t, f = Some t -> (field_text f = EmptyString <-> lstrip t = EmptyString)) /\
  (forall l, Forall (fun c => space_prefix c = Some EmptyString) l ->
     f = Some (fold_right String.append EmptyString l) -> field_text f = EmptyString).
Proof.
  split; [|split].
  - destruct f as [t|]; cbn [field_text]; [apply strip_idempotent | reflexivity].
  - intros t ->. cbn [field_text]. apply strip_empty.
  - intros l Hl ->. cbn [field_text]. apply strip_empty.
    now rewrite lstrip_spaces.
Qed.

Lemma field_text_is_trimmed_witness :
  let nbsp := String (chr 194) (String (chr 160) EmptyString) in
  let wide := String (chr 227) (String (chr 128) (String (chr 128) EmptyString)) in
  field_text (Some (" " +++ nbsp +++ wide +++ String newline EmptyString)) = EmptyString.
Proof.
  cbv zeta.
  apply (proj2 (proj2 (field_text_is_trimmed
           (Some (" " +++ String (chr 194) (String (chr 160) EmptyString)
                  +++ String (chr 227) (String (chr 128) (String (chr 128) EmptyString))
                  +++ String newline EmptyString))))
         [" "; String (chr 194) (String (chr 160) EmptyString);
          String (chr 227) (String (chr 128) (String (chr 128) EmptyString));
          String newline EmptyString]).
  - repeat constructor.
  - reflexivity.
Defined.

(** ** Phases and what they send *)

(** X17. A completed iteration has sent nothing and written nothing exactly
    when it ended in NotTradingDay, AlreadyPushedToday or
    OutsideTradingHours; the ledger file is then as it was.  The other
    three endings all start with the fetch. *)
Theorem quiet_phases (E : Env) (self : NewStockPusher) (w : World)
  (p : phase) (w' : World) (evs : list event) :
  run_cycle E self w = (Ok p, w') -> trace w' = (trace w ++ evs)%list ->
  (forallb quiet evs = true <->
   p = NotTradingDay \/ p = AlreadyPushedToday \/ p = OutsideTradingHours) /\
  (forallb quiet evs = true -> status_file w' = status_file w) /\
  (forallb quiet evs = false -> exists rest, evs = EvCrawl :: rest).
Proof.
  intros H Ht.
  apply run_cycle_paths in H as (evs' & Ht' & Hc).
  rewrite Ht' in Ht. apply app_inv_head in Ht. subst evs'.
  inversion Hc; subst; clear Hc;
    try (unfold next_day_wait in *; destruct (add_days _ _);
         match goal with H : _ /\ _ |- _ => destruct H as [Hr ->] end;
         try discriminate Hr; injection Hr as ->);
    cbn [forallb quiet is_write is_outbound negb andb app];
    (split; [split; [intros Hq | intros Hq] | split; intros Hq]);
    try discriminate Hq; try reflexivity; try congruence;
    try (destruct Hq as [Hq|[Hq|Hq]]; discriminate Hq);
    auto; try (eexists; reflexivity).
Qed.

Lemma quiet_phases_witness :
  let c := run_cycle (env_at (friday 16 0)) init (fresh Absent) in
  status_file (snd c) = Absent.
Proof.
  cbv zeta.
  set (c := run_cycle (env_at (friday 16 0)) init (fresh Absent)).
  destruct (quiet_phases (env_at (friday 16 0)) init (fresh Absent)
              OutsideTradingHours (snd c) (trace (snd c))) as (_ & H & _).
  - vm_compute. reflexivity.
  - reflexivity.
  - apply H. vm_compute. reflexivity.
Defined.
